(** * Investec Open API client (src/utils.py): token lifecycle and request plumbing

    A shallow embedding of [InvestecClient] and [get_investec_api_client].
    The Python methods mutate [self] and talk to the outside world (the wall
    clock and the HTTP endpoints); here they are programs of a small
    state-and-exception monad over the client object and a world that records
    every clock reading and every request put on the wire.

    Conventions.
    - Python values (JSON documents, arguments) are [pyval]; a [dict] with
      string keys is a [gmap string _].
    - Timestamps are exact rationals ([Qc]): [time.time()] returns a float and
      the rounding of float addition is not modelled.
    - [httpx], [base64.b64encode], [str] and [os.environ] are not part of the
      repository; the first is modelled by its documented behaviour, the
      others are parameters of the development. *)

From Stdlib Require Import ZArith QArith Qcanon Ascii String.
From stdpp Require Import base option numbers list strings pretty gmap fin_maps.

Local Open Scope string_scope.
Set Warnings "-register-all".

(** ** Python values *)

Inductive pyval : Type :=
| PNone
| PBool (b : bool)
| PInt (z : Z)
| PFloat (q : Qc)
| PStr (s : string)
| PList (l : list pyval)
| PDict (d : gmap string pyval).

(** Truth value testing, as done by [if x:], [x and y] and [all([...])]. *)
Definition truthy (v : pyval) : bool :=
  match v with
  | PNone => false
  | PBool b => b
  | PInt z => negb (z =? 0)%Z
  | PFloat q => negb (bool_decide (q = 0%Qc))
  | PStr s => negb (bool_decide (s = ""))
  | PList l => negb (bool_decide (length l = 0%nat))
  | PDict d => negb (bool_decide (size d = 0%nat))
  end.

(** ** Exceptions *)

(** What an [httpx] response object lets the client observe: the status code,
    the raw body and, when the body is a JSON document, the value that
    [response.json()] decodes it to. *)
Record Response : Type := mkResponse {
  status_code : Z;
  text : string;
  json_body : option pyval
}.

Inductive Exn : Type :=
| HTTPStatusError (response : Response)
| TransportError (reason : string)
| JSONDecodeError (doc : string)
| KeyError (key : string)
| TypeError
| ValueError (message : string).

Inductive Outcome (A : Type) : Type :=
| Ok (a : A)
| Raise (e : Exn).
Arguments Ok {A} a.
Arguments Raise {A} e.

(** ** Requests and the world *)

Record Request : Type := mkRequest {
  method : string;
  url : string;
  headers : gmap string string;
  params : option (gmap string string);
  json : option pyval;
  data : option (gmap string string)
}.

(** What comes back for a request: a response, or nothing (connection refused,
    timeout, ...). *)
Inductive Reply : Type :=
| Answer (response : Response)
| NoAnswer (reason : string).

Record World : Type := mkWorld {
  clock_reads : nat;      (* how many times time.time() has been called *)
  sent : list Request     (* every request put on the wire, oldest first *)
}.

(** ** The client object *)

Record InvestecClient : Type := mkClient {
  client_id : string;
  client_secret : string;
  api_key : string;
  access_token : pyval;
  token_expires_at : Qc;
  scope : string
}.

Record State : Type := mkState {
  self : InvestecClient;
  world : World
}.

Definition API_BASE_URL : string := "https://openapi.investec.com".
Definition TOKEN_URL : string := API_BASE_URL ++ "/identity/v2/oauth2/token".
Definition API_URL : string := API_BASE_URL ++ "/za/pb/v1".

(** [InvestecClient.__init__] *)
Definition __init__ (client_id client_secret api_key : string) : InvestecClient :=
  {| client_id := client_id;
     client_secret := client_secret;
     api_key := api_key;
     access_token := PNone;
     token_expires_at := 0%Qc;
     scope := "accounts balances transactions transfers beneficiarypayments documents.statements documents.taxcertificates" |}.

(** ** The monad of methods

    A method runs from a state to an outcome and a state.  An exception does
    not roll anything back: the state it leaves behind is the state at the
    point of the [raise]. *)

Definition M (A : Type) : Type := State -> Outcome A * State.

#[global] Instance M_ret : MRet M := fun A a s => (Ok a, s).

#[global] Instance M_bind : MBind M := fun A B f m s =>
  match m s with
  | (Ok a, s') => f a s'
  | (Raise e, s') => (Raise e, s')
  end.

Definition raise {A : Type} (e : Exn) : M A := fun s => (Raise e, s).

Definition get_self : M InvestecClient := fun s => (Ok (self s), s).

Definition set_access_token (v : pyval) : M unit := fun s =>
  let c := self s in
  (Ok tt,
   {| self := {| client_id := client_id c; client_secret := client_secret c;
                 api_key := api_key c; access_token := v;
                 token_expires_at := token_expires_at c; scope := scope c |};
      world := world s |}).

Definition set_token_expires_at (t : Qc) : M unit := fun s =>
  let c := self s in
  (Ok tt,
   {| self := {| client_id := client_id c; client_secret := client_secret c;
                 api_key := api_key c; access_token := access_token c;
                 token_expires_at := t; scope := scope c |};
      world := world s |}).

(** [response.raise_for_status()]: httpx raises for every status outside
    200..299. *)
Definition is_success (r : Response) : bool :=
  ((200 <=? status_code r) && (status_code r <=? 299))%Z.

Definition raise_for_status (r : Response) : M unit :=
  if is_success r then mret tt else raise (HTTPStatusError r).

(** [response.json()] *)
Definition response_json (r : Response) : M pyval :=
  match json_body r with
  | Some v => mret v
  | None => raise (JSONDecodeError (text r))
  end.

(** [data[key]] for a string key. *)
Definition getitem (v : pyval) (key : string) : M pyval :=
  match v with
  | PDict d =>
      match d !! key with
      | Some x => mret x
      | None => raise (KeyError key)
      end
  | _ => raise TypeError
  end.

(** The number a value stands for in float arithmetic, if it is one (a
    [bool] is an [int]). *)
Definition as_float (v : pyval) : option Qc :=
  match v with
  | PInt z => Some (Qc_of_Z z)
  | PFloat q => Some q
  | PBool b => Some (if b then 1%Qc else 0%Qc)
  | _ => None
  end.

(** [t + v] for a float [t]. *)
Definition float_add (t : Qc) (v : pyval) : M Qc :=
  match as_float v with
  | Some q => mret (t + q)%Qc
  | None => raise TypeError
  end.

(** ** Construction from the environment *)

(** [os.getenv(name, default)] *)
Definition getenv (environ : gmap string string) (name default : string) : string :=
  match environ !! name with
  | Some v => v
  | None => default
  end.

(** [all(xs)] *)
Definition all (xs : list pyval) : bool := forallb truthy xs.

Definition missing_credentials_message : string :=
  "Missing required environment variables: "
  ++ "INVESTEC_CLIENT_ID, INVESTEC_CLIENT_SECRET, or INVESTEC_API_KEY".

(** [get_investec_api_client] *)
Definition get_investec_api_client (environ : gmap string string)
    : Outcome InvestecClient :=
  let client_id := getenv environ "INVESTEC_CLIENT_ID" "" in
  let client_secret := getenv environ "INVESTEC_CLIENT_SECRET" "" in
  let api_key := getenv environ "INVESTEC_API_KEY" "" in
  if negb (all [PStr client_id; PStr client_secret; PStr api_key])
  then Raise (ValueError missing_credentials_message)
  else Ok (__init__ client_id client_secret api_key).

(** What the client runs against.  The outside world: the value of the [n]-th
    reading of the clock, and the reply to a request given everything sent
    before it.  The library functions: Python's
    [base64.b64encode(s.encode()).decode()] and [str(v)]. *)
Record Env : Type := mkEnv {
  clock : nat -> Qc;
  network : list Request -> Request -> Reply;
  b64encode : string -> string;
  py_str : pyval -> string
}.

Section Client.

Variable env : Env.

(** [time.time()] *)
Definition time_time : M Qc := fun s =>
  let w := world s in
  (Ok (clock env (clock_reads w)),
   {| self := self s;
      world := {| clock_reads := S (clock_reads w); sent := sent w |} |}).

(** [await client.request(...)] on a fresh [httpx.AsyncClient]. *)
Definition send (req : Request) : M Response := fun s =>
  let w := world s in
  let s' := {| self := self s;
               world := {| clock_reads := clock_reads w;
                           sent := sent w ++ [req] |} |} in
  match network env (sent w) req with
  | Answer r => (Ok r, s')
  | NoAnswer why => (Raise (TransportError why), s')
  end.

(** The request of lines 38-46. *)
Definition token_request (c : InvestecClient) : Request :=
  let auth := b64encode env (client_id c ++ ":" ++ client_secret c) in
  {| method := "POST";
     url := TOKEN_URL;
     headers := <["Authorization" := "Basic " ++ auth]>
                (<["x-api-key" := api_key c]>
                 (<["Content-Type" := "application/x-www-form-urlencoded"]> ∅));
     params := None;
     json := None;
     data := Some (<["grant_type" := "client_credentials"]>
                   (<["scope" := scope c]> ∅)) |}.

(** [InvestecClient._get_token] *)
Definition _get_token : M unit :=
  c ← get_self;
  fresh ← (if truthy (access_token c)
           then now ← time_time; mret (bool_decide (now < token_expires_at c)%Qc)
           else mret false);
  if (fresh : bool) then mret tt
  else
    response ← send (token_request c);
    raise_for_status response;;
    data ← response_json response;
    tok ← getitem data "access_token";
    set_access_token tok;;
    issued ← time_time;
    expires_in ← getitem data "expires_in";
    total ← float_add issued expires_in;
    set_token_expires_at (total - Qc_of_Z 60)%Qc.

(** The keyword arguments [_make_request] is called with in this file:
    [params=], [json=] and [headers=]. *)
Record Kwargs : Type := mkKwargs {
  kw_params : option (gmap string string);
  kw_json : option pyval;
  kw_headers : option (gmap string string)
}.

Definition no_kwargs : Kwargs :=
  {| kw_params := None; kw_json := None; kw_headers := None |}.

(** The request of lines 58-75, built once the token step is over. *)
Definition api_request (c : InvestecClient) (method endpoint : string)
    (kwargs : Kwargs) : Request :=
  let url := API_URL ++ endpoint in
  let headers : gmap string string :=
    <["Authorization" := "Bearer " ++ py_str env (access_token c)]>
    (<["x-api-key" := api_key c]>
     (<["Accept" := "application/json"]> ∅)) in
  let headers :=
    match kw_headers kwargs with
    | Some extra => extra ∪ headers          (* headers.update(extra) *)
    | None => headers
    end in
  {| method := method;
     url := url;
     headers := headers;
     params := kw_params kwargs;
     json := kw_json kwargs;
     data := None |}.

(** [InvestecClient._make_request] *)
Definition _make_request (method endpoint : string) (kwargs : Kwargs) : M pyval :=
  _get_token;;
  c ← get_self;
  response ← send (api_request c method endpoint kwargs);
  raise_for_status response;;
  response_json response.

(** *** Account information endpoints *)

Definition get_accounts : M pyval :=
  _make_request "GET" "/accounts" no_kwargs.

Definition get_account_balance (account_id : string) : M pyval :=
  _make_request "GET" ("/accounts/" ++ account_id ++ "/balance") no_kwargs.

(** [if arg: d[key] = arg] for an [Optional[str]] argument. *)
Definition set_if_truthy (key : string) (arg : option string)
    (d : gmap string string) : gmap string string :=
  match arg with
  | Some s => if truthy (PStr s) then <[key := s]> d else d
  | None => d
  end.

Definition get_account_transactions (account_id : string)
    (from_date to_date transaction_type : option string)
    (include_pending : bool) : M pyval :=
  let params : gmap string string := ∅ in
  let params := set_if_truthy "fromDate" from_date params in
  let params := set_if_truthy "toDate" to_date params in
  let params := set_if_truthy "transactionType" transaction_type params in
  let params :=
    if include_pending then <["includePending" := "true"]> params else params in
  _make_request "GET" ("/accounts/" ++ account_id ++ "/transactions")
    {| kw_params := Some params; kw_json := None; kw_headers := None |}.

Definition get_pending_transactions (account_id : string) : M pyval :=
  _make_request "GET" ("/accounts/" ++ account_id ++ "/pending-transactions")
    no_kwargs.

(** *** Profile endpoints *)

Definition get_profiles : M pyval :=
  _make_request "GET" "/profiles" no_kwargs.

Definition get_profile_accounts (profile_id : string) : M pyval :=
  _make_request "GET" ("/profiles/" ++ profile_id ++ "/accounts") no_kwargs.

Definition get_authorisation_setup_details (profile_id account_id : string)
    : M pyval :=
  _make_request "GET"
    ("/profiles/" ++ profile_id ++ "/accounts/" ++ account_id
       ++ "/authorisationsetupdetails")
    no_kwargs.

Definition get_profile_beneficiaries (profile_id account_id : string) : M pyval :=
  _make_request "GET"
    ("/profiles/" ++ profile_id ++ "/accounts/" ++ account_id ++ "/beneficiaries")
    no_kwargs.

(** *** Beneficiary endpoints *)

Definition get_beneficiaries : M pyval :=
  _make_request "GET" "/accounts/beneficiaries" no_kwargs.

Definition get_beneficiary_categories : M pyval :=
  _make_request "GET" "/accounts/beneficiarycategories" no_kwargs.

(** *** Transfer and payment endpoints *)

Definition json_content_type : gmap string string :=
  <["Content-Type" := "application/json"]> ∅.

Definition transfer_multiple (from_account_id : string)
    (transfer_list : list pyval) (profile_id : option string) : M pyval :=
  let payload : gmap string pyval := <["transferList" := PList transfer_list]> ∅ in
  let payload :=
    match profile_id with
    | Some p => if truthy (PStr p) then <["profileId" := PStr p]> payload else payload
    | None => payload
    end in
  _make_request "POST" ("/accounts/" ++ from_account_id ++ "/transfermultiple")
    {| kw_params := None; kw_json := Some (PDict payload);
       kw_headers := Some json_content_type |}.

Definition pay_multiple (account_id : string) (payment_list : list pyval)
    : M pyval :=
  _make_request "POST" ("/accounts/" ++ account_id ++ "/paymultiple")
    {| kw_params := None;
       kw_json := Some (PDict (<["paymentList" := PList payment_list]> ∅));
       kw_headers := Some json_content_type |}.

(** *** Document endpoints *)

Definition get_documents (account_id from_date to_date : string) : M pyval :=
  let params : gmap string string :=
    <["fromDate" := from_date]> (<["toDate" := to_date]> ∅) in
  _make_request "GET" ("/accounts/" ++ account_id ++ "/documents")
    {| kw_params := Some params; kw_json := None; kw_headers := None |}.

Definition get_document (account_id document_type document_date : string)
    : M pyval :=
  _make_request "GET"
    ("/accounts/" ++ account_id ++ "/document/" ++ document_type ++ "/"
       ++ document_date)
    no_kwargs.

(** *** Convenience methods *)

Definition transfer_entry (to_account_id : string) (amount : Qc)
    (reference : string) : pyval :=
  PDict (<["beneficiaryAccountId" := PStr to_account_id]>
         (<["amount" := PStr (py_str env (PFloat amount))]>
          (<["myReference" := PStr reference]>
           (<["theirReference" := PStr reference]> ∅)))).

Definition transfer_money (from_account_id to_account_id : string)
    (amount : Qc) (reference : string) : M pyval :=
  let transfer_list := [transfer_entry to_account_id amount reference] in
  transfer_multiple from_account_id transfer_list None.

Definition payment_entry (beneficiary_id : string) (amount : Qc)
    (reference : string) : pyval :=
  PDict (<["beneficiaryId" := PStr beneficiary_id]>
         (<["amount" := PStr (py_str env (PFloat amount))]>
          (<["myReference" := PStr reference]>
           (<["theirReference" := PStr reference]> ∅)))).

Definition pay_beneficiary (account_id beneficiary_id : string)
    (amount : Qc) (reference : string) : M pyval :=
  let payment_list := [payment_entry beneficiary_id amount reference] in
  pay_multiple account_id payment_list.

(** ** Operation calls

    One constructor per public method, with its arguments. *)
Inductive Call : Type :=
| GetAccounts
| GetAccountBalance (account_id : string)
| GetAccountTransactions (account_id : string)
    (from_date to_date transaction_type : option string) (include_pending : bool)
| GetPendingTransactions (account_id : string)
| GetProfiles
| GetProfileAccounts (profile_id : string)
| GetAuthorisationSetupDetails (profile_id account_id : string)
| GetProfileBeneficiaries (profile_id account_id : string)
| GetBeneficiaries
| GetBeneficiaryCategories
| TransferMultiple (from_account_id : string) (transfer_list : list pyval)
    (profile_id : option string)
| PayMultiple (account_id : string) (payment_list : list pyval)
| GetDocuments (account_id from_date to_date : string)
| GetDocument (account_id document_type document_date : string)
| TransferMoney (from_account_id to_account_id : string) (amount : Qc)
    (reference : string)
| PayBeneficiary (account_id beneficiary_id : string) (amount : Qc)
    (reference : string).

Definition perform (op : Call) : M pyval :=
  match op with
  | GetAccounts => get_accounts
  | GetAccountBalance a => get_account_balance a
  | GetAccountTransactions a f t ty p => get_account_transactions a f t ty p
  | GetPendingTransactions a => get_pending_transactions a
  | GetProfiles => get_profiles
  | GetProfileAccounts p => get_profile_accounts p
  | GetAuthorisationSetupDetails p a => get_authorisation_setup_details p a
  | GetProfileBeneficiaries p a => get_profile_beneficiaries p a
  | GetBeneficiaries => get_beneficiaries
  | GetBeneficiaryCategories => get_beneficiary_categories
  | TransferMultiple a l p => transfer_multiple a l p
  | PayMultiple a l => pay_multiple a l
  | GetDocuments a f t => get_documents a f t
  | GetDocument a ty d => get_document a ty d
  | TransferMoney a b x r => transfer_money a b x r
  | PayBeneficiary a b x r => pay_beneficiary a b x r
  end.

(** A caller making the calls [ops] one after the other on the same client;
    a call that raises leaves the client as it is at that point and the next
    call goes ahead (the tool layer catches every exception). *)
Fixpoint run (ops : list Call) (s : State) : State :=
  match ops with
  | [] => s
  | op :: rest => run rest (snd (perform op s))
  end.

End Client.

(** ** Observations used in the statements *)

(** The time a call made in state [s] reads first. *)
Definition now (env : Env) (s : State) : Qc :=
  clock env (clock_reads (world s)).

(** The state after one reading of the clock. *)
Definition tick (s : State) : State :=
  {| self := self s;
     world := {| clock_reads := S (clock_reads (world s));
                 sent := sent (world s) |} |}.

(** The test of line 32: a token is held and the clock is before its expiry. *)
Definition token_is_fresh (env : Env) (s : State) : bool :=
  truthy (access_token (self s))
  && bool_decide (now env s < token_expires_at (self s))%Qc.

(** The requests of a log that went to the identity endpoint. *)
Definition token_posts (w : World) : list Request :=
  filter (fun r => url r = TOKEN_URL) (sent w).

(** Along the calls [ops] from [s]: how many start in a state without a fresh
    token. *)
Fixpoint renewals_due (env : Env) (ops : list Call) (s : State) : nat :=
  match ops with
  | [] => 0
  | op :: rest =>
      (if token_is_fresh env s then 0 else 1)
      + renewals_due env rest (snd (perform env op s))
  end.


(** The credentials of a client. *)
Definition credentials (c : InvestecClient) : string * string * string :=
  (client_id c, client_secret c, api_key c).

(** The query parameters of a request ([{}] when it has none). *)
Definition query (req : Request) : gmap string string :=
  default ∅ (params req).

(** The method, path and keyword arguments each call hands to
    [_make_request]: the table of operations. *)
Definition descriptor (env : Env) (op : Call) : string * string * Kwargs :=
  match op with
  | GetAccounts => ("GET", "/accounts", no_kwargs)
  | GetAccountBalance a => ("GET", "/accounts/" ++ a ++ "/balance", no_kwargs)
  | GetAccountTransactions a f t ty p =>
      ("GET", "/accounts/" ++ a ++ "/transactions",
       {| kw_params :=
            Some (let q := set_if_truthy "transactionType" ty
                             (set_if_truthy "toDate" t
                                (set_if_truthy "fromDate" f ∅)) in
                  if p then <["includePending" := "true"]> q else q);
          kw_json := None; kw_headers := None |})
  | GetPendingTransactions a =>
      ("GET", "/accounts/" ++ a ++ "/pending-transactions", no_kwargs)
  | GetProfiles => ("GET", "/profiles", no_kwargs)
  | GetProfileAccounts p => ("GET", "/profiles/" ++ p ++ "/accounts", no_kwargs)
  | GetAuthorisationSetupDetails p a =>
      ("GET", "/profiles/" ++ p ++ "/accounts/" ++ a ++ "/authorisationsetupdetails",
       no_kwargs)
  | GetProfileBeneficiaries p a =>
      ("GET", "/profiles/" ++ p ++ "/accounts/" ++ a ++ "/beneficiaries", no_kwargs)
  | GetBeneficiaries => ("GET", "/accounts/beneficiaries", no_kwargs)
  | GetBeneficiaryCategories => ("GET", "/accounts/beneficiarycategories", no_kwargs)
  | TransferMultiple a l p =>
      ("POST", "/accounts/" ++ a ++ "/transfermultiple",
       {| kw_params := None;
          kw_json :=
            Some (PDict (let body : gmap string pyval :=
                           <["transferList" := PList l]> ∅ in
                         match p with
                         | Some p' => if truthy (PStr p')
                                      then <["profileId" := PStr p']> body else body
                         | None => body
                         end));
          kw_headers := Some json_content_type |})
  | PayMultiple a l =>
      ("POST", "/accounts/" ++ a ++ "/paymultiple",
       {| kw_params := None;
          kw_json := Some (PDict (<["paymentList" := PList l]> ∅));
          kw_headers := Some json_content_type |})
  | GetDocuments a f t =>
      ("GET", "/accounts/" ++ a ++ "/documents",
       {| kw_params := Some (<["fromDate" := f]> (<["toDate" := t]> ∅));
          kw_json := None; kw_headers := None |})
  | GetDocument a ty d =>
      ("GET", "/accounts/" ++ a ++ "/document/" ++ ty ++ "/" ++ d, no_kwargs)
  | TransferMoney a b x r =>
      ("POST", "/accounts/" ++ a ++ "/transfermultiple",
       {| kw_params := None;
          kw_json :=
            Some (PDict (<["transferList" := PList [transfer_entry env b x r]]> ∅));
          kw_headers := Some json_content_type |})
  | PayBeneficiary a b x r =>
      ("POST", "/accounts/" ++ a ++ "/paymultiple",
       {| kw_params := None;
          kw_json :=
            Some (PDict (<["paymentList" := PList [payment_entry env b x r]]> ∅));
          kw_headers := Some json_content_type |})
  end.

(** The renewal of lines 35-52 on its own: what [_get_token] goes on to do
    once the test of line 32 has failed. *)
Definition renewal (env : Env) (c : InvestecClient) : M unit :=
  response ← send env (token_request env c);
  raise_for_status response;;
  data ← response_json response;
  tok ← getitem data "access_token";
  set_access_token tok;;
  issued ← time_time env;
  expires_in ← getitem data "expires_in";
  total ← float_add issued expires_in;
  set_token_expires_at (total - Qc_of_Z 60)%Qc.

(** The state in which the renewal starts: the clock has been read iff the
    token was truthy. *)
Definition checked (s : State) : State :=
  if truthy (access_token (self s)) then tick s else s.

(** The state once [req] is on the wire. *)
Definition posted (req : Request) (s : State) : State :=
  {| self := self s;
     world := {| clock_reads := clock_reads (world s);
                 sent := sent (world s) ++ [req] |} |}.

(** An [Optional[str]] argument as the test [if arg:] sees it: [None] and the
    empty string alike count as not given. *)
Definition non_empty (arg : option string) : option string :=
  match arg with
  | Some "" => None
  | Some v => Some v
  | None => None
  end.

(** A variable that [os.getenv(name, "")] cannot tell from a missing one. *)
Definition unset_or_empty (environ : gmap string string) (name : string) : Prop :=
  environ !! name = None \/ environ !! name = Some "".

(** ** Example worlds

    Concrete clocks, endpoints and clients on which the statements below are
    exercised. *)

(** Standard base64 with padding, on the bytes of the string. *)
Definition b64_alphabet : string :=
  "ABCDEFGHIJKLMNOPQRSTUVWXYZabcdefghijklmnopqrstuvwxyz0123456789+/".

Definition b64_digit (n : N) : ascii :=
  default "="%char (String.get (N.to_nat n) b64_alphabet).

Fixpoint b64_groups (bytes : list N) : string :=
  match bytes with
  | [] => ""
  | [a] =>
      let n := (a * 65536)%N in
      String (b64_digit (n / 262144)) (String (b64_digit ((n / 4096) mod 64)) "==")
  | [a; b] =>
      let n := (a * 65536 + b * 256)%N in
      String (b64_digit (n / 262144))
        (String (b64_digit ((n / 4096) mod 64))
           (String (b64_digit ((n / 64) mod 64)) "="))
  | a :: b :: c :: rest =>
      let n := (a * 65536 + b * 256 + c)%N in
      String (b64_digit (n / 262144))
        (String (b64_digit ((n / 4096) mod 64))
           (String (b64_digit ((n / 64) mod 64))
              (String (b64_digit (n mod 64)) (b64_groups rest))))
  end.

Definition example_b64encode (s : string) : string :=
  b64_groups (map N_of_ascii (list_ascii_of_string s)).

(** [str] on the values the examples format: strings, [None], booleans,
    integers and floats with an integral value ([100.0]). *)
Definition example_str (v : pyval) : string :=
  match v with
  | PStr s => s
  | PNone => "None"
  | PBool b => if b then "True" else "False"
  | PInt z => pretty z
  | PFloat q => pretty (Qnum q / Z.pos (Qden q))%Z ++ ".0"
  | _ => "..."
  end.

(** A clock that shows 1000, 1001, 1002, ... at successive readings. *)
Definition example_clock (n : nat) : Qc := Qc_of_Z (1000 + Z.of_nat n).

Definition json_response (status : Z) (raw : string) (v : pyval) : Response :=
  {| status_code := status; text := raw; json_body := Some v |}.

Definition granted : Response :=
  json_response 200 "{'access_token': 'tok', 'expires_in': 300}"
    (PDict (<["access_token" := PStr "tok"]> (<["expires_in" := PInt 300]> ∅))).

Definition unauthorized : Response :=
  json_response 401 "{'error': 'invalid_client'}"
    (PDict (<["error" := PStr "invalid_client"]> ∅)).

Definition no_lifetime : Response :=
  json_response 200 "{'access_token': 'tok'}"
    (PDict (<["access_token" := PStr "tok"]> ∅)).

Definition accounts_listing : Response :=
  json_response 200 "{'data': {'accounts': []}}"
    (PDict (<["data" := PDict (<["accounts" := PList []]> ∅)]> ∅)).

Definition server_error : Response :=
  json_response 500 "{'message': 'err'}"
    (PDict (<["message" := PStr "err"]> ∅)).

(** An endpoint pair: [identity] answers the token requests, [resource]
    everything else. *)
Definition endpoints (identity resource : Response)
    (history : list Request) (req : Request) : Reply :=
  if bool_decide (url req = TOKEN_URL) then Answer identity else Answer resource.

Definition example_env (identity resource : Response) : Env :=
  {| clock := example_clock;
     network := endpoints identity resource;
     b64encode := example_b64encode;
     py_str := example_str |}.

(** A client just constructed, in a world where nothing has happened yet. *)
Definition start : State :=
  {| self := __init__ "id" "secret" "key";
     world := {| clock_reads := 0; sent := [] |} |}.

(** The same client holding a token that expires at 1240. *)
Definition authenticated : State :=
  {| self := {| client_id := "id"; client_secret := "secret"; api_key := "key";
                access_token := PStr "tok";
                token_expires_at := (example_clock 0 + Qc_of_Z 300 - Qc_of_Z 60)%Qc;
                scope := scope (__init__ "id" "secret" "key") |};
     world := {| clock_reads := 1;
                 sent := [token_request (example_env granted accounts_listing)
                            (__init__ "id" "secret" "key")] |} |}.

(** The same client holding a token that ran out at 900. *)
Definition expired : State :=
  {| self := {| client_id := "id"; client_secret := "secret"; api_key := "key";
                access_token := PStr "old";
                token_expires_at := Qc_of_Z 900;
                scope := scope (__init__ "id" "secret" "key") |};
     world := {| clock_reads := 0; sent := [] |} |}.

(** An environment with the three variables set. *)
Definition example_environ (id secret key : string) : gmap string string :=
  <["INVESTEC_CLIENT_ID" := id]>
  (<["INVESTEC_CLIENT_SECRET" := secret]>
   (<["INVESTEC_API_KEY" := key]> ∅)).

(** ** The tool layer (src/tools) and the entry point (src/main.py)

    Every tool is a function of the arguments the agent gives; it fetches the
    one client of the server's lifespan context, calls the method of the same
    name, and returns text: the JSON rendering of the result or, when
    anything raised, an error message.  [json.dumps(v, indent=2)] and
    [str(e)] are library functions and parameters here. *)

Record Presentation : Type := mkPresentation {
  json_dumps : pyval -> string;
  exn_str : Exn -> string
}.

(** A computation that cannot raise. *)
Definition T (A : Type) : Type := State -> A * State.

(** [try: return body  except Exception as e: return handler(e)] *)
Definition try_except (body : M string) (handler : Exn -> string) : T string :=
  fun s =>
    match body s with
    | (Ok answer, s') => (answer, s')
    | (Raise e, s') => (handler e, s')
    end.

Module Tools.
Section Tools.

Variable env : Env.
Variable out : Presentation.

(** *** tools/accounts.py *)

Definition get_accounts : T string :=
  try_except
    (accounts ← get_accounts env; mret (json_dumps out accounts))
    (fun e => "Error retrieving accounts: " ++ exn_str out e).

Definition get_account_balance (account_id : string) : T string :=
  try_except
    (balance ← get_account_balance env account_id;
     mret (json_dumps out balance))
    (fun e => "Error retrieving account balance: " ++ exn_str out e).

Definition get_account_transactions (account_id : string)
    (from_date to_date transaction_type : option string)
    (include_pending : bool) : T string :=
  try_except
    (transactions ← get_account_transactions env account_id from_date to_date
                      transaction_type include_pending;
     mret (json_dumps out transactions))
    (fun e => "Error retrieving account transactions: " ++ exn_str out e).

Definition get_pending_transactions (account_id : string) : T string :=
  try_except
    (pending_transactions ← get_pending_transactions env account_id;
     mret (json_dumps out pending_transactions))
    (fun e => "Error retrieving pending transactions: " ++ exn_str out e).

(** *** tools/profiles.py *)

Definition get_profiles : T string :=
  try_except
    (profiles ← get_profiles env; mret (json_dumps out profiles))
    (fun e => "Error retrieving profiles: " ++ exn_str out e).

Definition get_profile_accounts (profile_id : string) : T string :=
  try_except
    (profile_accounts ← get_profile_accounts env profile_id;
     mret (json_dumps out profile_accounts))
    (fun e => "Error retrieving profile accounts: " ++ exn_str out e).

Definition get_authorisation_setup_details (profile_id account_id : string)
    : T string :=
  try_except
    (auth_details ← get_authorisation_setup_details env profile_id account_id;
     mret (json_dumps out auth_details))
    (fun e => "Error retrieving authorisation setup details: " ++ exn_str out e).

Definition get_profile_beneficiaries (profile_id account_id : string)
    : T string :=
  try_except
    (profile_beneficiaries ← get_profile_beneficiaries env profile_id account_id;
     mret (json_dumps out profile_beneficiaries))
    (fun e => "Error retrieving profile beneficiaries: " ++ exn_str out e).

(** *** tools/beneficiaries.py *)

Definition get_beneficiaries : T string :=
  try_except
    (beneficiaries ← get_beneficiaries env; mret (json_dumps out beneficiaries))
    (fun e => "Error retrieving beneficiaries: " ++ exn_str out e).

Definition get_beneficiary_categories : T string :=
  try_except
    (categories ← get_beneficiary_categories env;
     mret (json_dumps out categories))
    (fun e => "Error retrieving beneficiary categories: " ++ exn_str out e).

(** *** tools/payments.py *)

Definition transfer_multiple (from_account_id : string)
    (transfer_list : list pyval) (profile_id : option string) : T string :=
  try_except
    (transfer_result ← transfer_multiple env from_account_id transfer_list
                         profile_id;
     mret (json_dumps out transfer_result))
    (fun e => "Error performing transfers: " ++ exn_str out e).

Definition pay_multiple (account_id : string) (payment_list : list pyval)
    : T string :=
  try_except
    (payment_result ← pay_multiple env account_id payment_list;
     mret (json_dumps out payment_result))
    (fun e => "Error making payments: " ++ exn_str out e).

Definition transfer_money (from_account_id to_account_id : string)
    (amount : Qc) (reference : string) : T string :=
  try_except
    (transfer_result ← transfer_money env from_account_id to_account_id amount
                         reference;
     mret (json_dumps out transfer_result))
    (fun e => "Error transferring money: " ++ exn_str out e).

Definition pay_beneficiary (account_id beneficiary_id : string)
    (amount : Qc) (reference : string) : T string :=
  try_except
    (payment_result ← pay_beneficiary env account_id beneficiary_id amount
                        reference;
     mret (json_dumps out payment_result))
    (fun e => "Error paying beneficiary: " ++ exn_str out e).

(** *** tools/documents.py *)

Definition get_documents (account_id from_date to_date : string) : T string :=
  try_except
    (documents ← get_documents env account_id from_date to_date;
     mret (json_dumps out documents))
    (fun e => "Error retrieving documents: " ++ exn_str out e).

Definition get_document (account_id document_type document_date : string)
    : T string :=
  try_except
    (document ← get_document env account_id document_type document_date;
     mret (json_dumps out document))
    (fun e => "Error retrieving document: " ++ exn_str out e).

(** A call of a registered tool by name, with its arguments. *)
Inductive Invocation : Type :=
| GetAccounts
| GetAccountBalance (account_id : string)
| GetAccountTransactions (account_id : string)
    (from_date to_date transaction_type : option string) (include_pending : bool)
| GetPendingTransactions (account_id : string)
| GetProfiles
| GetProfileAccounts (profile_id : string)
| GetAuthorisationSetupDetails (profile_id account_id : string)
| GetProfileBeneficiaries (profile_id account_id : string)
| GetBeneficiaries
| GetBeneficiaryCategories
| TransferMultiple (from_account_id : string) (transfer_list : list pyval)
    (profile_id : option string)
| PayMultiple (account_id : string) (payment_list : list pyval)
| TransferMoney (from_account_id to_account_id : string) (amount : Qc)
    (reference : string)
| PayBeneficiary (account_id beneficiary_id : string) (amount : Qc)
    (reference : string)
| GetDocuments (account_id from_date to_date : string)
| GetDocument (account_id document_type document_date : string).

Definition invoke (i : Invocation) : T string :=
  match i with
  | GetAccounts => get_accounts
  | GetAccountBalance a => get_account_balance a
  | GetAccountTransactions a f t ty p => get_account_transactions a f t ty p
  | GetPendingTransactions a => get_pending_transactions a
  | GetProfiles => get_profiles
  | GetProfileAccounts p => get_profile_accounts p
  | GetAuthorisationSetupDetails p a => get_authorisation_setup_details p a
  | GetProfileBeneficiaries p a => get_profile_beneficiaries p a
  | GetBeneficiaries => get_beneficiaries
  | GetBeneficiaryCategories => get_beneficiary_categories
  | TransferMultiple a l p => transfer_multiple a l p
  | PayMultiple a l => pay_multiple a l
  | TransferMoney a b x r => transfer_money a b x r
  | PayBeneficiary a b x r => pay_beneficiary a b x r
  | GetDocuments a f t => get_documents a f t
  | GetDocument a ty d => get_document a ty d
  end.

(** The agent invoking tools one after the other on the server's client:
    the texts returned, in order, and the final state. *)
Fixpoint session (calls : list Invocation) (s : State) : list string * State :=
  match calls with
  | [] => ([], s)
  | i :: rest =>
      let '(answer, s') := invoke i s in
      let '(answers, s'') := session rest s' in
      (answer :: answers, s'')
  end.

End Tools.

End Tools.

(** The client method behind each tool, with the arguments as the tool
    passes them on. *)
Definition method_of (i : Tools.Invocation) : Call :=
  match i with
  | Tools.GetAccounts => GetAccounts
  | Tools.GetAccountBalance a => GetAccountBalance a
  | Tools.GetAccountTransactions a f t ty p => GetAccountTransactions a f t ty p
  | Tools.GetPendingTransactions a => GetPendingTransactions a
  | Tools.GetProfiles => GetProfiles
  | Tools.GetProfileAccounts p => GetProfileAccounts p
  | Tools.GetAuthorisationSetupDetails p a => GetAuthorisationSetupDetails p a
  | Tools.GetProfileBeneficiaries p a => GetProfileBeneficiaries p a
  | Tools.GetBeneficiaries => GetBeneficiaries
  | Tools.GetBeneficiaryCategories => GetBeneficiaryCategories
  | Tools.TransferMultiple a l p => TransferMultiple a l p
  | Tools.PayMultiple a l => PayMultiple a l
  | Tools.TransferMoney a b x r => TransferMoney a b x r
  | Tools.PayBeneficiary a b x r => PayBeneficiary a b x r
  | Tools.GetDocuments a f t => GetDocuments a f t
  | Tools.GetDocument a ty d => GetDocument a ty d
  end.

(** The words each tool puts before [str(e)]. *)
Definition error_prefix (i : Tools.Invocation) : string :=
  match i with
  | Tools.GetAccounts => "Error retrieving accounts: "
  | Tools.GetAccountBalance _ => "Error retrieving account balance: "
  | Tools.GetAccountTransactions _ _ _ _ _ =>
      "Error retrieving account transactions: "
  | Tools.GetPendingTransactions _ => "Error retrieving pending transactions: "
  | Tools.GetProfiles => "Error retrieving profiles: "
  | Tools.GetProfileAccounts _ => "Error retrieving profile accounts: "
  | Tools.GetAuthorisationSetupDetails _ _ =>
      "Error retrieving authorisation setup details: "
  | Tools.GetProfileBeneficiaries _ _ => "Error retrieving profile beneficiaries: "
  | Tools.GetBeneficiaries => "Error retrieving beneficiaries: "
  | Tools.GetBeneficiaryCategories => "Error retrieving beneficiary categories: "
  | Tools.TransferMultiple _ _ _ => "Error performing transfers: "
  | Tools.PayMultiple _ _ => "Error making payments: "
  | Tools.TransferMoney _ _ _ _ => "Error transferring money: "
  | Tools.PayBeneficiary _ _ _ _ => "Error paying beneficiary: "
  | Tools.GetDocuments _ _ _ => "Error retrieving documents: "
  | Tools.GetDocument _ _ _ => "Error retrieving document: "
  end.

(** *** main.py *)

Inductive Transport : Type := SSE | Stdio.

(** The branch of [main]: which of [mcp.run_sse_async()] and
    [mcp.run_stdio_async()] gets control. *)
Definition main_transport (environ : gmap string string) : Transport :=
  let transport := getenv environ "TRANSPORT" "sse" in
  if bool_decide (transport = "sse") then SSE else Stdio.

(** Examples of the presentation functions: a compact rendering of the
    values the examples return, and the exception's name. *)
Definition example_presentation : Presentation :=
  {| json_dumps := fun v => match v with
                            | PDict _ => "{...}"
                            | PList _ => "[...]"
                            | other => example_str other
                            end;
     exn_str := fun e => match e with
                         | HTTPStatusError r => "HTTP status " ++ pretty (status_code r)
                         | TransportError why => why
                         | JSONDecodeError _ => "Expecting value"
                         | KeyError k => "'" ++ k ++ "'"
                         | TypeError => "unsupported operand"
                         | ValueError m => m
                         end |}.

(** A state whose token is fresh, in a world where the clock has been read
    twice (it now shows 1002). *)
Definition cached : State :=
  {| self := self authenticated;
     world := {| clock_reads := 2; sent := sent (world authenticated) |} |}.

(** A network on which nothing answers, and one on which only the identity
    endpoint does. *)
Definition offline (history : list Request) (req : Request) : Reply :=
  NoAnswer "connection refused".

Definition resource_offline (history : list Request) (req : Request) : Reply :=
  if bool_decide (url req = TOKEN_URL) then Answer granted
  else NoAnswer "connection refused".

Definition example_env_on (net : list Request -> Request -> Reply) : Env :=
  {| clock := example_clock;
     network := net;
     b64encode := example_b64encode;
     py_str := example_str |}.

(** Success statuses with a body that is not JSON, is JSON but not an object,
    grants an empty token, or grants one for 45 seconds. *)
Definition html_page : Response :=
  {| status_code := 200; text := "<html>maintenance</html>"; json_body := None |}.

Definition json_list : Response := json_response 200 "[]" (PList []).



(** * Properties *)

Section Properties.

Variable env : Env.

(** ** How the monad steps *)

Lemma bind_ok {A B : Type} (m : M A) (f : A -> M B) (s s' : State) (a : A) :
  m s = (Ok a, s') -> (m ≫= f) s = f a s'.
Proof. intros H. unfold mbind, M_bind. now rewrite H. Qed.

Lemma bind_raise {A B : Type} (m : M A) (f : A -> M B) (s s' : State) (e : Exn) :
  m s = (Raise e, s') -> (m ≫= f) s = (Raise e, s').
Proof. intros H. unfold mbind, M_bind. now rewrite H. Qed.

(** ** The test of line 32 *)


Lemma token_is_stale_spec (s : State) :
  token_is_fresh env s = false <->
  truthy (access_token (self s)) = false
  \/ (token_expires_at (self s) <= now env s)%Qc.
Proof.
  unfold token_is_fresh. rewrite andb_false_iff, bool_decide_eq_false.
  rewrite Qcle_ngt. tauto.
Qed.

Lemma get_token_fresh (s : State) :
  token_is_fresh env s = true -> _get_token env s = (Ok tt, tick s).
Proof.
  unfold token_is_fresh, now, _get_token. intros H.
  apply andb_true_iff in H as [Ht Hlt].
  unfold mbind, M_bind, get_self. simpl. rewrite Ht. simpl.
  now rewrite Hlt.
Qed.

Lemma get_token_stale (s : State) :
  token_is_fresh env s = false ->
  _get_token env s = renewal env (self s) (checked s).
Proof.
  unfold token_is_fresh, now, _get_token, checked. intros H.
  unfold mbind at 1 2. unfold M_bind at 1 2. unfold get_self.
  destruct (truthy (access_token (self s))); simpl in *.
  - rewrite H. reflexivity.
  - reflexivity.
Qed.

Lemma self_checked (s : State) : self (checked s) = self s.
Proof. unfold checked. now destruct (truthy _). Qed.

Lemma sent_checked (s : State) : sent (world (checked s)) = sent (world s).
Proof. unfold checked. now destruct (truthy _). Qed.

(** ** The renewal, reply by reply *)

Ltac run_renewal :=
  unfold renewal, send, raise_for_status, response_json, getitem, float_add,
    set_access_token, set_token_expires_at, time_time, raise;
  unfold mbind, M_bind, mret, M_ret; simpl.

Lemma renewal_no_answer (c : InvestecClient) (s : State) (why : string) :
  network env (sent (world s)) (token_request env c) = NoAnswer why ->
  renewal env c s = (Raise (TransportError why), posted (token_request env c) s).
Proof. intros H. run_renewal. now rewrite H. Qed.

Lemma renewal_bad_status (c : InvestecClient) (s : State) (r : Response) :
  network env (sent (world s)) (token_request env c) = Answer r ->
  is_success r = false ->
  renewal env c s = (Raise (HTTPStatusError r), posted (token_request env c) s).
Proof. intros H Hr. run_renewal. now rewrite H, Hr. Qed.


Lemma renewal_no_access_token (c : InvestecClient) (s : State) (r : Response)
    (d : gmap string pyval) :
  network env (sent (world s)) (token_request env c) = Answer r ->
  is_success r = true ->
  json_body r = Some (PDict d) ->
  d !! "access_token" = None ->
  renewal env c s
  = (Raise (KeyError "access_token"), posted (token_request env c) s).
Proof.
  intros H Hr Hj Ht. run_renewal.
  rewrite H, Hr. simpl. rewrite Hj. simpl. now rewrite Ht.
Qed.

Lemma renewal_no_expires_in (c : InvestecClient) (s : State) (r : Response)
    (d : gmap string pyval) (tok : pyval) :
  network env (sent (world s)) (token_request env c) = Answer r ->
  is_success r = true ->
  json_body r = Some (PDict d) ->
  d !! "access_token" = Some tok ->
  d !! "expires_in" = None ->
  renewal env c s =
  (Raise (KeyError "expires_in"),
   {| self := {| client_id := client_id (self s);
                 client_secret := client_secret (self s);
                 api_key := api_key (self s);
                 access_token := tok;
                 token_expires_at := token_expires_at (self s);
                 scope := scope (self s) |};
      world := {| clock_reads := S (clock_reads (world s));
                  sent := sent (world s) ++ [token_request env c] |} |}).
Proof.
  intros H Hr Hj Ht He. run_renewal.
  rewrite H, Hr. simpl. rewrite Hj. simpl. rewrite Ht. simpl.
  now rewrite He.
Qed.

(** Whatever the reply, a renewal puts exactly its one request on the wire
    and leaves the credentials alone. *)
Lemma renewal_frame (c : InvestecClient) (s : State) :
  sent (world (snd (renewal env c s)))
  = (sent (world s) ++ [token_request env c])%list
  /\ credentials (self (snd (renewal env c s))) = credentials (self s).
Proof.
  run_renewal.
  destruct (network env (sent (world s)) (token_request env c)) as [r|why];
    simpl; [|done].
  destruct (is_success r); simpl; [|done].
  destruct (json_body r) as [v|]; simpl; [|done].
  destruct v as [| | | | | |d]; simpl; try done.
  destruct (d !! "access_token") as [tok|]; simpl; [|done].
  destruct (d !! "expires_in") as [e|]; simpl; [|done].
  destruct (as_float e); simpl; done.
Qed.

Lemma get_token_frame (s : State) :
  sent (world (snd (_get_token env s)))
  = (sent (world s)
     ++ (if token_is_fresh env s then [] else [token_request env (self s)]))%list
  /\ credentials (self (snd (_get_token env s))) = credentials (self s).
Proof.
  destruct (token_is_fresh env s) eqn:Hf.
  - rewrite get_token_fresh by done. simpl. now rewrite app_nil_r.
  - rewrite get_token_stale by done.
    destruct (renewal_frame (self s) (checked s)) as [Hs Hc].
    now rewrite Hs, Hc, sent_checked, self_checked.
Qed.

(** ** The authenticated request *)

Lemma make_request_auth_fails (method endpoint : string) (kwargs : Kwargs)
    (s s1 : State) (e : Exn) :
  _get_token env s = (Raise e, s1) ->
  _make_request env method endpoint kwargs s = (Raise e, s1).
Proof. intros H. unfold _make_request. now apply bind_raise. Qed.

Ltac run_exchange H :=
  unfold _make_request; rewrite (bind_ok _ _ _ _ _ H);
  unfold send, raise_for_status, response_json, get_self, raise;
  unfold mbind, M_bind, mret, M_ret; simpl.

Lemma make_request_no_answer (method endpoint : string) (kwargs : Kwargs)
    (s s1 : State) (why : string) :
  _get_token env s = (Ok tt, s1) ->
  network env (sent (world s1)) (api_request env (self s1) method endpoint kwargs)
  = NoAnswer why ->
  _make_request env method endpoint kwargs s
  = (Raise (TransportError why),
     posted (api_request env (self s1) method endpoint kwargs) s1).
Proof. intros H Hn. run_exchange H. now rewrite Hn. Qed.

Lemma make_request_bad_status (method endpoint : string) (kwargs : Kwargs)
    (s s1 : State) (r : Response) :
  _get_token env s = (Ok tt, s1) ->
  network env (sent (world s1)) (api_request env (self s1) method endpoint kwargs)
  = Answer r ->
  is_success r = false ->
  _make_request env method endpoint kwargs s
  = (Raise (HTTPStatusError r),
     posted (api_request env (self s1) method endpoint kwargs) s1).
Proof. intros H Hn Hr. run_exchange H. now rewrite Hn, Hr. Qed.

Lemma make_request_returns (method endpoint : string) (kwargs : Kwargs)
    (s s1 : State) (r : Response) (v : pyval) :
  _get_token env s = (Ok tt, s1) ->
  network env (sent (world s1)) (api_request env (self s1) method endpoint kwargs)
  = Answer r ->
  is_success r = true ->
  json_body r = Some v ->
  _make_request env method endpoint kwargs s
  = (Ok v, posted (api_request env (self s1) method endpoint kwargs) s1).
Proof.
  intros H Hn Hr Hj. run_exchange H. rewrite Hn, Hr. simpl. now rewrite Hj.
Qed.

Lemma make_request_undecodable (method endpoint : string) (kwargs : Kwargs)
    (s s1 : State) (r : Response) :
  _get_token env s = (Ok tt, s1) ->
  network env (sent (world s1)) (api_request env (self s1) method endpoint kwargs)
  = Answer r ->
  is_success r = true ->
  json_body r = None ->
  _make_request env method endpoint kwargs s
  = (Raise (JSONDecodeError (text r)),
     posted (api_request env (self s1) method endpoint kwargs) s1).
Proof.
  intros H Hn Hr Hj. run_exchange H. rewrite Hn, Hr. simpl. now rewrite Hj.
Qed.

(** A call that gets past the token step puts exactly one more request on
    the wire, and never touches the client object itself. *)
Lemma make_request_frame (method endpoint : string) (kwargs : Kwargs)
    (s : State) :
  let s1 := snd (_get_token env s) in
  sent (world (snd (_make_request env method endpoint kwargs s)))
  = (sent (world s1)
     ++ match fst (_get_token env s) with
        | Ok _ => [api_request env (self s1) method endpoint kwargs]
        | Raise _ => []
        end)%list
  /\ self (snd (_make_request env method endpoint kwargs s)) = self s1.
Proof.
  destruct (_get_token env s) as [[[]|e] s1] eqn:H; simpl.
  - run_exchange H.
    destruct (network env _ _) as [r|why]; simpl; [|done].
    destruct (is_success r); simpl; [|done].
    destruct (json_body r); done.
  - rewrite (make_request_auth_fails _ _ _ _ _ _ H). simpl.
    now rewrite app_nil_r.
Qed.

(** Every public method is [_make_request] on its row of the table. *)
Lemma perform_descriptor (op : Call) :
  perform env op
  = _make_request env (descriptor env op).1.1 (descriptor env op).1.2
      (descriptor env op).2.
Proof. destruct op; reflexivity. Qed.

Lemma api_request_not_token (c : InvestecClient) (method endpoint : string)
    (kwargs : Kwargs) :
  url (api_request env c method endpoint kwargs) <> TOKEN_URL.
Proof. unfold api_request, API_URL, TOKEN_URL, API_BASE_URL. simpl. discriminate. Qed.

Lemma perform_token_posts (op : Call) (s : State) :
  token_posts (world (snd (perform env op s)))
  = (token_posts (world s)
     ++ (if token_is_fresh env s then [] else [token_request env (self s)]))%list.
Proof.
  rewrite perform_descriptor. unfold token_posts.
  destruct (make_request_frame (descriptor env op).1.1 (descriptor env op).1.2
              (descriptor env op).2 s) as [Hs _].
  simpl in Hs. rewrite Hs. destruct (get_token_frame s) as [Ht _]. rewrite Ht.
  rewrite !filter_app.
  assert (Hnone : forall o : Outcome unit,
    filter (fun r => url r = TOKEN_URL)
      match o with
      | Ok _ => [api_request env (self (snd (_get_token env s)))
                   (descriptor env op).1.1 (descriptor env op).1.2
                   (descriptor env op).2]
      | Raise _ => []
      end = []).
  { intros [|]; [|done].
    rewrite filter_cons_False; [done|]. apply api_request_not_token. }
  rewrite Hnone, app_nil_r. f_equal.
  destruct (token_is_fresh env s); [done|].
  now rewrite filter_cons_True.
Qed.

Lemma perform_credentials (op : Call) (s : State) :
  credentials (self (snd (perform env op s))) = credentials (self s).
Proof.
  rewrite perform_descriptor.
  destruct (make_request_frame (descriptor env op).1.1 (descriptor env op).1.2
              (descriptor env op).2 s) as [_ Hc].
  simpl in Hc. rewrite Hc. apply get_token_frame.
Qed.

(** ** Token lifecycle *)

Lemma run_token_posts (ops : list Call) (s : State) :
  length (token_posts (world (run env ops s)))
  = (length (token_posts (world s)) + renewals_due env ops s)%nat.
Proof.
  revert s. induction ops as [|op rest IH]; intros s; simpl.
  - lia.
  - rewrite IH, perform_token_posts, length_app.
    destruct (token_is_fresh env s); simpl; lia.
Qed.



(** C3. When the identity endpoint answers with a non-success status,
    [_get_token] raises the status error carrying that response, the client
    object (token and expiry included) is exactly as before, and the next
    call, in any later world, asks the identity endpoint again (when a token
    is held, "later" means that the clock has not run backwards since the
    failed call read it). *)
Theorem identity_error_leaves_token_state (s : State) (r : Response)
    (later : World) :
  token_is_fresh env s = false ->
  network env (sent (world s)) (token_request env (self s)) = Answer r ->
  is_success r = false ->
  (truthy (access_token (self s)) = true ->
   (now env s <= clock env (clock_reads later))%Qc) ->
  let after := snd (_get_token env s) in
  fst (_get_token env s) = Raise (HTTPStatusError r)
  /\ self after = self s
  /\ sent (world after) = (sent (world s) ++ [token_request env (self s)])%list
  /\ sent (world (snd (_get_token env {| self := self after; world := later |})))
     = (sent later ++ [token_request env (self s)])%list.
Proof.
  intros Hf Hn Hr Hlater. rewrite get_token_stale by done.
  rewrite <- (sent_checked s) in Hn.
  rewrite (renewal_bad_status (self s) (checked s) r Hn Hr). simpl.
  rewrite !self_checked, sent_checked. repeat split.
  destruct (get_token_frame {| self := self s; world := later |}) as [Hs _].
  rewrite Hs. simpl.
  assert (Hstale : token_is_fresh env {| self := self s; world := later |} = false).
  { apply token_is_stale_spec. apply token_is_stale_spec in Hf.
    destruct Hf as [Hf|Hf]; [now left|]. simpl.
    destruct (truthy (access_token (self s))) eqn:Hheld; [right|now left].
    unfold now at 1. simpl. transitivity (now env s); auto. }
  now rewrite Hstale.
Qed.

(** C8. The credentials of a client are those given to the constructor, after
    any sequence of calls, failed ones included; no call and no token step
    changes them. *)
Theorem credentials_are_immutable (id secret key : string) (w : World)
    (ops : list Call) :
  credentials (__init__ id secret key) = (id, secret, key)
  /\ credentials (self (run env ops {| self := __init__ id secret key; world := w |}))
     = (id, secret, key)
  /\ (forall (op : Call) (s : State),
        credentials (self (snd (perform env op s))) = credentials (self s))
  /\ (forall s : State,
        credentials (self (snd (_get_token env s))) = credentials (self s)).
Proof.
  split; [done|]. split; [|split].
  - assert (Hrun : forall l s,
      credentials (self (run env l s)) = credentials (self s)).
    { induction l as [|op rest IH]; intros s; simpl; [done|].
      now rewrite IH, perform_credentials. }
    now rewrite Hrun.
  - apply perform_credentials.
  - intros s. apply get_token_frame.
Qed.

(** ** Malformed token responses *)

(** A granted response without [access_token] is rejected before anything is
    stored. *)
Lemma token_response_without_access_token (s : State) (r : Response)
    (d : gmap string pyval) :
  token_is_fresh env s = false ->
  network env (sent (world s)) (token_request env (self s)) = Answer r ->
  is_success r = true ->
  json_body r = Some (PDict d) ->
  d !! "access_token" = None ->
  fst (_get_token env s) = Raise (KeyError "access_token")
  /\ self (snd (_get_token env s)) = self s.
Proof.
  intros Hf Hn Hr Hj Ht. rewrite get_token_stale by done.
  rewrite <- (sent_checked s) in Hn.
  rewrite (renewal_no_access_token (self s) (checked s) r d Hn Hr Hj Ht).
  simpl. now rewrite self_checked.
Qed.

(** One with [access_token] but without [expires_in] is rejected after line
    51 has run: the new token is stored next to the old expiry. *)
Lemma token_response_without_expires_in (s : State) (r : Response)
    (d : gmap string pyval) (tok : pyval) :
  token_is_fresh env s = false ->
  network env (sent (world s)) (token_request env (self s)) = Answer r ->
  is_success r = true ->
  json_body r = Some (PDict d) ->
  d !! "access_token" = Some tok ->
  d !! "expires_in" = None ->
  fst (_get_token env s) = Raise (KeyError "expires_in")
  /\ access_token (self (snd (_get_token env s))) = tok
  /\ token_expires_at (self (snd (_get_token env s))) = token_expires_at (self s).
Proof.
  intros Hf Hn Hr Hj Ht He. rewrite get_token_stale by done.
  rewrite <- (sent_checked s) in Hn.
  rewrite (renewal_no_expires_in (self s) (checked s) r d tok Hn Hr Hj Ht He).
  simpl. now rewrite self_checked.
Qed.

(** ** Resource calls *)

(** C5. For every operation whose token step succeeds, exactly one request
    goes to the resource endpoint; when the answer has a non-success status
    the call raises the status error carrying that very response (status code
    and body), and when it has a success status the call returns the decoded
    JSON body as it is.  Either way the client object is untouched. *)
Theorem api_call_single_attempt (op : Call) (s s1 : State) :
  _get_token env s = (Ok tt, s1) ->
  exists req : Request,
    sent (world (snd (perform env op s))) = (sent (world s1) ++ [req])%list
    /\ url req <> TOKEN_URL
    /\ forall r : Response,
         network env (sent (world s1)) req = Answer r ->
         (is_success r = false ->
          perform env op s = (Raise (HTTPStatusError r), posted req s1))
         /\ (is_success r = true ->
             forall v : pyval,
               json_body r = Some v -> perform env op s = (Ok v, posted req s1)).
Proof.
  intros Ht. rewrite perform_descriptor.
  exists (api_request env (self s1) (descriptor env op).1.1
            (descriptor env op).1.2 (descriptor env op).2).
  split; [|split].
  - destruct (make_request_frame (descriptor env op).1.1 (descriptor env op).1.2
                (descriptor env op).2 s) as [Hs _].
    simpl in Hs. now rewrite Hs, Ht.
  - apply api_request_not_token.
  - intros r Hn. split.
    + intros Hr. now apply make_request_bad_status.
    + intros Hr v Hj. now apply make_request_returns with (r := r).
Qed.

Lemma set_if_truthy_lookup (key : string) (arg : option string)
    (d : gmap string string) :
  set_if_truthy key arg d !! key
  = match non_empty arg with Some v => Some v | None => d !! key end.
Proof.
  destruct arg as [[|a v]|]; simpl; try done.
  apply lookup_insert_eq.
Qed.

Lemma set_if_truthy_lookup_ne (key key' : string) (arg : option string)
    (d : gmap string string) :
  key <> key' -> set_if_truthy key arg d !! key' = d !! key'.
Proof.
  intros Hne. destruct arg as [[|a v]|]; simpl; try done.
  now apply lookup_insert_ne.
Qed.

Lemma make_request_sends (method endpoint : string) (kwargs : Kwargs)
    (s s1 : State) :
  _get_token env s = (Ok tt, s1) ->
  sent (world (snd (_make_request env method endpoint kwargs s)))
  = (sent (world s1) ++ [api_request env (self s1) method endpoint kwargs])%list.
Proof.
  intros Ht. destruct (make_request_frame method endpoint kwargs s) as [Hs _].
  simpl in Hs. now rewrite Hs, Ht.
Qed.

Lemma filters_lookup (from_date to_date transaction_type : option string) :
  let q := set_if_truthy "transactionType" transaction_type
             (set_if_truthy "toDate" to_date
                (set_if_truthy "fromDate" from_date ∅)) in
  q !! "fromDate" = non_empty from_date
  /\ q !! "toDate" = non_empty to_date
  /\ q !! "transactionType" = non_empty transaction_type
  /\ q !! "includePending" = None.
Proof.
  simpl. repeat split;
    repeat (rewrite set_if_truthy_lookup
            || rewrite set_if_truthy_lookup_ne by done
            || rewrite lookup_empty);
    try done.
  - now destruct (non_empty from_date).
  - now destruct (non_empty to_date).
  - now destruct (non_empty transaction_type).
Qed.

(** C6 (as amended). [get_account_transactions] issues a GET to
    /accounts/{id}/transactions; its query has [includePending = "true"]
    exactly when [include_pending] is true, and for each of [from_date],
    [to_date], [transaction_type] it has the corresponding key with the
    argument's value when the argument is a non-empty string, and no such key
    when the argument is [None] or empty. *)
Theorem account_transactions_query (account_id : string)
    (from_date to_date transaction_type : option string)
    (include_pending : bool) (s s1 : State) :
  _get_token env s = (Ok tt, s1) ->
  exists req : Request,
    sent (world (snd (get_account_transactions env account_id from_date to_date
                        transaction_type include_pending s)))
    = (sent (world s1) ++ [req])%list
    /\ method req = "GET"
    /\ url req = API_URL ++ "/accounts/" ++ account_id ++ "/transactions"
    /\ (query req !! "includePending" = Some "true" <-> include_pending = true)
    /\ (include_pending = false -> query req !! "includePending" = None)
    /\ query req !! "fromDate" = non_empty from_date
    /\ query req !! "toDate" = non_empty to_date
    /\ query req !! "transactionType" = non_empty transaction_type.
Proof.
  intros Ht. eexists. split.
  { unfold get_account_transactions. apply (make_request_sends _ _ _ _ _ Ht). }
  unfold query. simpl.
  split; [done|]. split; [done|].
  destruct (filters_lookup from_date to_date transaction_type)
    as (Hf & Hd & Hy & Hp).
  destruct include_pending.
  - rewrite lookup_insert_eq, !lookup_insert_ne by done.
    repeat split; done.
  - rewrite Hp. repeat split; done.
Qed.

(** C7. [transfer_money] is [transfer_multiple] on a one-element list and no
    profile id; the element has the destination account, the stringified
    amount and the reference in both reference fields, and the body that goes
    out, a POST to /accounts/{from}/transfermultiple, carries that list under
    [transferList] and has no [profileId] key. *)
Theorem transfer_money_delegates (from_account_id to_account_id : string)
    (amount : Qc) (reference : string) (s s1 : State) :
  _get_token env s = (Ok tt, s1) ->
  exists (entry body : gmap string pyval) (req : Request),
    transfer_money env from_account_id to_account_id amount reference
    = transfer_multiple env from_account_id [PDict entry] None
    /\ entry !! "beneficiaryAccountId" = Some (PStr to_account_id)
    /\ entry !! "amount" = Some (PStr (py_str env (PFloat amount)))
    /\ entry !! "myReference" = Some (PStr reference)
    /\ entry !! "theirReference" = Some (PStr reference)
    /\ size entry = 4%nat
    /\ sent (world (snd (transfer_money env from_account_id to_account_id
                           amount reference s)))
       = (sent (world s1) ++ [req])%list
    /\ method req = "POST"
    /\ url req = API_URL ++ "/accounts/" ++ from_account_id ++ "/transfermultiple"
    /\ json req = Some (PDict body)
    /\ body !! "transferList" = Some (PList [PDict entry])
    /\ body !! "profileId" = None.
Proof.
  intros Ht. eexists _, _, _. split; [reflexivity|].
  split; [apply lookup_insert_eq|].
  do 3 (split; [now rewrite !lookup_insert_ne by done; rewrite lookup_insert_eq|]).
  split.
  { rewrite !map_size_insert_None, map_size_empty; try done;
      now rewrite ?lookup_insert_ne by done. }
  split.
  { unfold transfer_money, transfer_multiple.
    apply (make_request_sends _ _ _ _ _ Ht). }
  simpl. repeat split; try done.
Qed.

(** C10. An empty string given for [from_date], [to_date] or
    [transaction_type] is treated exactly as [None]: the call is the same
    computation and the query that goes out has no such key; likewise an
    empty [profile_id] gives [transfer_multiple] a body without [profileId]. *)
Theorem empty_string_is_not_given (account_id : string)
    (from_date to_date transaction_type : option string)
    (include_pending : bool) (transfer_list : list pyval) (s s1 : State) :
  _get_token env s = (Ok tt, s1) ->
  get_account_transactions env account_id (Some "") to_date transaction_type
    include_pending
  = get_account_transactions env account_id None to_date transaction_type
      include_pending
  /\ get_account_transactions env account_id from_date (Some "")
       transaction_type include_pending
     = get_account_transactions env account_id from_date None transaction_type
         include_pending
  /\ get_account_transactions env account_id from_date to_date (Some "")
       include_pending
     = get_account_transactions env account_id from_date to_date None
         include_pending
  /\ transfer_multiple env account_id transfer_list (Some "")
     = transfer_multiple env account_id transfer_list None
  /\ (exists req : Request,
        sent (world (snd (get_account_transactions env account_id (Some "")
                            (Some "") (Some "") include_pending s)))
        = (sent (world s1) ++ [req])%list
        /\ query req !! "fromDate" = None
        /\ query req !! "toDate" = None
        /\ query req !! "transactionType" = None)
  /\ (exists (req : Request) (body : gmap string pyval),
        sent (world (snd (transfer_multiple env account_id transfer_list
                            (Some "") s)))
        = (sent (world s1) ++ [req])%list
        /\ json req = Some (PDict body)
        /\ body !! "transferList" = Some (PList transfer_list)
        /\ body !! "profileId" = None).
Proof.
  intros Ht. do 4 (split; [reflexivity|]). split.
  - eexists. split.
    { unfold get_account_transactions. apply (make_request_sends _ _ _ _ _ Ht). }
    unfold query. simpl.
    destruct (filters_lookup (Some "") (Some "") (Some ""))
      as (Hf & Hd & Hy & _). simpl in Hf, Hd, Hy.
    destruct include_pending; rewrite ?lookup_insert_ne by done; done.
  - eexists _, _. split.
    { unfold transfer_multiple. apply (make_request_sends _ _ _ _ _ Ht). }
    simpl. repeat split; try done.
Qed.

End Properties.

(** ** Construction *)

Lemma getenv_empty (environ : gmap string string) (name : string) :
  getenv environ name "" = "" <-> unset_or_empty environ name.
Proof.
  unfold getenv, unset_or_empty. destruct (environ !! name) as [v|].
  - split; [intros ->; now right|]. intros [H|H]; congruence.
  - split; [now left|done].
Qed.

Lemma all_credentials (a b c : string) :
  all [PStr a; PStr b; PStr c] = false <-> a = "" \/ b = "" \/ c = "".
Proof.
  unfold all. simpl. rewrite andb_true_r, !andb_false_iff, !negb_false_iff.
  rewrite !bool_decide_eq_true. tauto.
Qed.

(** C9 (as amended). [get_investec_api_client] raises [ValueError], and makes
    no client, exactly when one of the three variables is unset or empty;
    when all three are set to non-empty strings it returns a client holding
    them, with no token and expiry 0. *)
Theorem client_from_environment (environ : gmap string string) :
  (get_investec_api_client environ = Raise (ValueError missing_credentials_message)
   <-> unset_or_empty environ "INVESTEC_CLIENT_ID"
       \/ unset_or_empty environ "INVESTEC_CLIENT_SECRET"
       \/ unset_or_empty environ "INVESTEC_API_KEY")
  /\ ((exists c, get_investec_api_client environ = Ok c)
      <-> ~ (unset_or_empty environ "INVESTEC_CLIENT_ID"
             \/ unset_or_empty environ "INVESTEC_CLIENT_SECRET"
             \/ unset_or_empty environ "INVESTEC_API_KEY"))
  /\ (forall id secret key : string,
        environ !! "INVESTEC_CLIENT_ID" = Some id ->
        environ !! "INVESTEC_CLIENT_SECRET" = Some secret ->
        environ !! "INVESTEC_API_KEY" = Some key ->
        id <> "" -> secret <> "" -> key <> "" ->
        exists c : InvestecClient,
          get_investec_api_client environ = Ok c
          /\ credentials c = (id, secret, key)
          /\ access_token c = PNone
          /\ token_expires_at c = 0%Qc).
Proof.
  unfold get_investec_api_client.
  rewrite <- !getenv_empty, <- all_credentials.
  destruct (all _) eqn:Hall; simpl.
  - split; [split; [done|intros; congruence]|]. split.
    + split; [intros _; congruence|]. intros _. eauto.
    + intros id secret key Hi Hs Hk _ _ _. eexists. split; [reflexivity|].
      unfold getenv. rewrite Hi, Hs, Hk. done.
  - split; [done|]. split.
    + split; [intros [c Hc]; congruence|]. intros H. now destruct H.
    + intros id secret key Hi Hs Hk Hid Hsecret Hkey. exfalso.
      apply all_credentials in Hall. unfold getenv in Hall.
      rewrite Hi, Hs, Hk in Hall. tauto.
Qed.

(** * The statements on the example worlds *)

(** Three calls in a row against an identity endpoint that grants 300 s: the
    token is requested once, by the first call. *)
Example three_calls_one_token_request :
  let env := example_env granted accounts_listing in
  let calls := [GetAccounts; GetAccountBalance "123"; GetProfiles] in
  map url (sent (world (run env calls start)))
  = [TOKEN_URL;
     API_URL ++ "/accounts";
     API_URL ++ "/accounts/123/balance";
     API_URL ++ "/profiles"]
  /\ renewals_due env calls start = 1%nat.
Proof. vm_compute. split; reflexivity. Qed.

(** Against one that refuses, every call asks again. *)
Example refused_calls_ask_again :
  let env := example_env unauthorized accounts_listing in
  let calls := [GetAccounts; GetProfiles] in
  map url (sent (world (run env calls start))) = [TOKEN_URL; TOKEN_URL]
  /\ access_token (self (run env calls start)) = PNone.
Proof. vm_compute. split; reflexivity. Qed.



Lemma identity_error_leaves_token_state_witness :
  let env := example_env unauthorized accounts_listing in
  let after := snd (_get_token env expired) in
  (token_is_fresh env expired = false
   /\ status_code unauthorized = 401%Z
   /\ is_success unauthorized = false)
  /\ fst (_get_token env expired) = Raise (HTTPStatusError unauthorized)
  /\ self after = self expired
  /\ sent (world (snd (_get_token env
                         {| self := self after; world := world after |})))
     = [token_request env (self expired); token_request env (self expired)].
Proof.
  intros env after.
  assert (Hf : token_is_fresh env expired = false) by (vm_compute; reflexivity).
  assert (Hn : network env (sent (world expired))
                 (token_request env (self expired)) = Answer unauthorized)
    by (vm_compute; reflexivity).
  assert (Hr : is_success unauthorized = false) by reflexivity.
  assert (Hl : truthy (access_token (self expired)) = true ->
               (now env expired <= clock env (clock_reads (world after)))%Qc)
    by (intros _; vm_compute; discriminate).
  split; [auto|].
  destruct (identity_error_leaves_token_state env expired unauthorized
              (world after) Hf Hn Hr Hl) as (He & Hs & Hw & Hretry).
  split; [exact He|]. split; [exact Hs|].
  fold after in Hretry. rewrite Hretry. subst after. rewrite Hw. reflexivity.
Defined.

(** C4.  On a fresh client, an identity response with a success status whose
    body has [access_token] but no [expires_in] makes [_get_token] raise
    [KeyError] only after line 51 has run: the client that had no token now
    holds the new one, next to the old expiry. *)
Theorem missing_expires_in_overwrites_token :
  let env := example_env no_lifetime accounts_listing in
  let after := self (snd (_get_token env start)) in
  is_success no_lifetime = true
  /\ fst (_get_token env start) = Raise (KeyError "expires_in")
  /\ access_token (self start) = PNone
  /\ access_token after = PStr "tok"
  /\ token_expires_at after = token_expires_at (self start).
Proof.
  intros env after. split; [reflexivity|].
  destruct (token_response_without_expires_in env start no_lifetime
              (<["access_token" := PStr "tok"]> ∅) (PStr "tok"))
    as (He & Ht & Hx); try (vm_compute; reflexivity).
  subst after. rewrite He, Ht, Hx. done.
Qed.

Lemma api_call_single_attempt_witness :
  let env := example_env granted server_error in
  let s1 := snd (_get_token env start) in
  (_get_token env start = (Ok tt, s1)
   /\ status_code server_error = 500%Z
   /\ is_success server_error = false)
  /\ fst (perform env GetAccounts start) = Raise (HTTPStatusError server_error)
  /\ length (sent (world (snd (perform env GetAccounts start)))) = 2%nat.
Proof.
  intros env s1.
  assert (Ht : _get_token env start = (Ok tt, s1)) by (vm_compute; reflexivity).
  split; [auto|].
  destruct (api_call_single_attempt env GetAccounts start s1 Ht)
    as (req & Hs & Hu & Hreply).
  assert (Hn : network env (sent (world s1)) req = Answer server_error).
  { unfold env at 1. simpl. unfold endpoints.
    now rewrite bool_decide_eq_false_2. }
  destruct (Hreply server_error Hn) as [Hbad _].
  rewrite (Hbad eq_refl). simpl. split; [reflexivity|].
  rewrite length_app. vm_compute. reflexivity.
Defined.

(** Counterexample to C6 as first stated: with [from_date = ""] the argument
    is supplied, and the query that goes out has no [fromDate] key. *)
Lemma supplied_empty_from_date_is_dropped :
  let env := example_env granted accounts_listing in
  let from_date := Some "" in
  ~ (forall req : Request,
       last (sent (world (snd (get_account_transactions env "123" from_date
                                 None None true start)))) = Some req ->
       url req = API_URL ++ "/accounts/123/transactions"
       /\ forall v : string, from_date = Some v -> query req !! "fromDate" = Some v).
Proof.
  intros env from_date Hclaim.
  destruct (Hclaim (api_request env (self (snd (_get_token env start))) "GET"
                      "/accounts/123/transactions"
                      {| kw_params := Some (<["includePending" := "true"]> ∅);
                         kw_json := None; kw_headers := None |}))
    as [_ H].
  - vm_compute. reflexivity.
  - specialize (H "" eq_refl). vm_compute in H. discriminate H.
Qed.

Lemma account_transactions_query_witness :
  let env := example_env granted accounts_listing in
  _get_token env start = (Ok tt, snd (_get_token env start))
  /\ exists req : Request,
       sent (world (snd (get_account_transactions env "123" None None None true
                           start)))
       = [token_request env (self start); req]
       /\ method req = "GET"
       /\ url req = API_URL ++ "/accounts/123/transactions"
       /\ query req !! "includePending" = Some "true"
       /\ query req !! "fromDate" = None
       /\ query req !! "toDate" = None
       /\ query req !! "transactionType" = None.
Proof.
  intros env.
  assert (Ht : _get_token env start = (Ok tt, snd (_get_token env start)))
    by (vm_compute; reflexivity).
  split; [exact Ht|].
  destruct (account_transactions_query env "123" None None None true start _ Ht)
    as (req & Hs & Hm & Hu & Hp & _ & Hf & Hd & Hy).
  exists req. rewrite Hs. repeat split; try assumption.
  now apply Hp.
Defined.

Lemma transfer_money_delegates_witness :
  let env := example_env granted accounts_listing in
  _get_token env start = (Ok tt, snd (_get_token env start))
  /\ exists (entry body : gmap string pyval) (req : Request),
       transfer_money env "A" "B" (Qc_of_Z 100) "ref"
       = transfer_multiple env "A" [PDict entry] None
       /\ entry !! "beneficiaryAccountId" = Some (PStr "B")
       /\ entry !! "amount" = Some (PStr "100.0")
       /\ entry !! "myReference" = Some (PStr "ref")
       /\ entry !! "theirReference" = Some (PStr "ref")
       /\ last (sent (world (snd (transfer_money env "A" "B" (Qc_of_Z 100) "ref"
                                    start)))) = Some req
       /\ url req = API_URL ++ "/accounts/A/transfermultiple"
       /\ json req = Some (PDict body)
       /\ body !! "transferList" = Some (PList [PDict entry])
       /\ body !! "profileId" = None.
Proof.
  intros env.
  assert (Ht : _get_token env start = (Ok tt, snd (_get_token env start)))
    by (vm_compute; reflexivity).
  split; [exact Ht|].
  destruct (transfer_money_delegates env "A" "B" (Qc_of_Z 100) "ref" start _ Ht)
    as (entry & body & req & Heq & Hb & Ha & Hm & Hth & _ & Hs & _ & Hu & Hj
        & Hl & Hp).
  exists entry, body, req. rewrite Hs, last_snoc.
  repeat split; assumption.
Defined.

Lemma empty_string_is_not_given_witness :
  let env := example_env granted accounts_listing in
  _get_token env start = (Ok tt, snd (_get_token env start))
  /\ get_account_transactions env "123" (Some "") None None false
     = get_account_transactions env "123" None None None false
  /\ transfer_multiple env "A" [] (Some "") = transfer_multiple env "A" [] None
  /\ exists (req : Request) (body : gmap string pyval),
       last (sent (world (snd (transfer_multiple env "A" [] (Some "") start))))
       = Some req
       /\ json req = Some (PDict body)
       /\ body !! "profileId" = None.
Proof.
  intros env.
  assert (Ht : _get_token env start = (Ok tt, snd (_get_token env start)))
    by (vm_compute; reflexivity).
  split; [exact Ht|].
  destruct (empty_string_is_not_given env "123" None None None false [] start _ Ht)
    as (Hf & _ & _ & _ & _ & _).
  destruct (empty_string_is_not_given env "A" None None None false [] start _ Ht)
    as (_ & _ & _ & Hp & _ & req & body & Hs & Hj & _ & Hk).
  split; [exact Hf|]. split; [exact Hp|].
  exists req, body. rewrite Hs, last_snoc. auto.
Defined.

(** Counterexample to C9 as first stated: all three variables are set, one of
    them to the empty string, and no client is made. *)
Lemma empty_credential_is_rejected :
  let environ := example_environ "id" "secret" "" in
  ~ (get_investec_api_client environ = Raise (ValueError missing_credentials_message)
     <-> environ !! "INVESTEC_CLIENT_ID" = None
         \/ environ !! "INVESTEC_CLIENT_SECRET" = None
         \/ environ !! "INVESTEC_API_KEY" = None).
Proof.
  intros environ [Hfails _].
  assert (Hraise : get_investec_api_client environ
                   = Raise (ValueError missing_credentials_message))
    by (vm_compute; reflexivity).
  destruct (Hfails Hraise) as [H|[H|H]]; vm_compute in H; discriminate H.
Qed.

Lemma client_from_environment_witness :
  let environ := example_environ "id" "secret" "key" in
  exists c : InvestecClient,
    get_investec_api_client environ = Ok c
    /\ credentials c = ("id", "secret", "key")
    /\ access_token c = PNone
    /\ token_expires_at c = 0%Qc.
Proof.
  intros environ.
  destruct (client_from_environment environ) as (_ & _ & Hok).
  apply (Hok "id" "secret" "key"); try (vm_compute; reflexivity);
    discriminate.
Defined.

(** * Further properties of the client, the tools and the entry point *)

Section Further.

Variable env : Env.

Ltac run_token_step :=
  unfold renewal, send, raise_for_status, response_json, getitem, float_add,
    set_access_token, set_token_expires_at, time_time, raise;
  unfold mbind, M_bind, mret, M_ret; simpl.

(** The token request is made of the credentials and the scope only. *)
Lemma token_request_ext (c c' : InvestecClient) :
  credentials c = credentials c' -> scope c = scope c' ->
  token_request env c = token_request env c'.
Proof.
  unfold credentials, token_request. intros Hc Hs.
  injection Hc as -> -> ->. now rewrite Hs.
Qed.

(** How a renewal can fail, and what it leaves behind. *)
Lemma renewal_failure (c : InvestecClient) (s s1 : State) (e : Exn) :
  renewal env c s = (Raise e, s1) ->
  token_expires_at (self s1) = token_expires_at (self s)
  /\ credentials (self s1) = credentials (self s)
  /\ scope (self s1) = scope (self s)
  /\ (self s1 = self s
      \/ (e = KeyError "expires_in" \/ e = TypeError)
         /\ exists (r : Response) (d : gmap string pyval),
              network env (sent (world s)) (token_request env c) = Answer r
              /\ is_success r = true
              /\ json_body r = Some (PDict d)
              /\ d !! "access_token" = Some (access_token (self s1))).
Proof.
  run_token_step.
  destruct (network env (sent (world s)) (token_request env c)) as [r|why] eqn:Hn;
    simpl; [|intros [= <- <-]; simpl; auto].
  destruct (is_success r) eqn:Hr; simpl; [|intros [= <- <-]; simpl; auto].
  destruct (json_body r) as [v|] eqn:Hj; simpl; [|intros [= <- <-]; simpl; auto].
  destruct v as [| | | | | |d]; simpl; try (intros [= <- <-]; simpl; now auto).
  destruct (d !! "access_token") as [tok|] eqn:Ht; simpl;
    [|intros [= <- <-]; simpl; auto].
  destruct (d !! "expires_in") as [x|] eqn:He; simpl.
  - destruct (as_float x); simpl; [discriminate|].
    intros [= <- <-]; simpl. repeat split; try done.
    right. split; [now right|]. now exists r, d.
  - intros [= <- <-]; simpl. repeat split; try done.
    right. split; [now left|]. now exists r, d.
Qed.

Lemma renewal_scope (c : InvestecClient) (s : State) :
  scope (self (snd (renewal env c s))) = scope (self s).
Proof.
  destruct (renewal env c s) as [[[]|e] s1] eqn:H; simpl.
  - revert H. run_token_step.
    destruct (network env _ _) as [r|why]; simpl; [|discriminate].
    destruct (is_success r); simpl; [|discriminate].
    destruct (json_body r) as [v|]; simpl; [|discriminate].
    destruct v as [| | | | | |d]; simpl; try discriminate.
    destruct (d !! "access_token"); simpl; [|discriminate].
    destruct (d !! "expires_in") as [x|]; simpl; [|discriminate].
    destruct (as_float x); simpl; [|discriminate].
    now intros [= <-].
  - now apply renewal_failure in H.
Qed.

Lemma get_token_scope (s : State) :
  scope (self (snd (_get_token env s))) = scope (self s).
Proof.
  destruct (token_is_fresh env s) eqn:Hf.
  - now rewrite get_token_fresh.
  - rewrite get_token_stale, renewal_scope by done. now rewrite self_checked.
Qed.

Lemma perform_scope (op : Call) (s : State) :
  scope (self (snd (perform env op s))) = scope (self s).
Proof.
  rewrite perform_descriptor.
  destruct (make_request_frame env (descriptor env op).1.1
              (descriptor env op).1.2 (descriptor env op).2 s) as [_ Hc].
  simpl in Hc. rewrite Hc. apply get_token_scope.
Qed.

(** X1. A call whose token step raises stops there: the exception is that of
    the token step, and the only request on the wire is the token request. *)
Theorem failed_token_step_stops_the_call (op : Call) (s s1 : State) (e : Exn) :
  _get_token env s = (Raise e, s1) ->
  perform env op s = (Raise e, s1)
  /\ sent (world s1) = (sent (world s) ++ [token_request env (self s)])%list.
Proof.
  intros H. split.
  - rewrite perform_descriptor. now apply make_request_auth_fails.
  - destruct (get_token_frame env s) as [Hs _]. rewrite H in Hs. simpl in Hs.
    destruct (token_is_fresh env s) eqn:Hf; [|done].
    rewrite get_token_fresh in H by done. discriminate.
Qed.


(** X3. When the identity endpoint cannot be reached, every call raises the
    transport error after that one attempt, and the client is unchanged. *)
Theorem identity_unreachable (op : Call) (s : State) (why : string) :
  token_is_fresh env s = false ->
  network env (sent (world s)) (token_request env (self s)) = NoAnswer why ->
  fst (perform env op s) = Raise (TransportError why)
  /\ self (snd (perform env op s)) = self s
  /\ sent (world (snd (perform env op s)))
     = (sent (world s) ++ [token_request env (self s)])%list.
Proof.
  intros Hf Hn.
  assert (Ht : _get_token env s
               = (Raise (TransportError why),
                  posted (token_request env (self s)) (checked s))).
  { rewrite get_token_stale by done. apply renewal_no_answer.
    now rewrite sent_checked. }
  rewrite perform_descriptor, (make_request_auth_fails env _ _ _ _ _ _ Ht).
  simpl. now rewrite self_checked, sent_checked.
Qed.

(** X4. Past the token step, a call makes one attempt on the resource
    endpoint whatever comes back: no answer raises the transport error, a
    success status with a body that is not JSON raises the decode error; the
    token state is the one the token step left. *)
Theorem resource_exchange_failures (op : Call) (s s1 : State) :
  _get_token env s = (Ok tt, s1) ->
  exists req : Request,
    sent (world (snd (perform env op s))) = (sent (world s1) ++ [req])%list
    /\ url req <> TOKEN_URL
    /\ self (snd (perform env op s)) = self s1
    /\ (forall why : string,
          network env (sent (world s1)) req = NoAnswer why ->
          fst (perform env op s) = Raise (TransportError why))
    /\ (forall r : Response,
          network env (sent (world s1)) req = Answer r ->
          is_success r = true ->
          json_body r = None ->
          fst (perform env op s) = Raise (JSONDecodeError (text r))).
Proof.
  intros Ht. rewrite perform_descriptor.
  exists (api_request env (self s1) (descriptor env op).1.1
            (descriptor env op).1.2 (descriptor env op).2).
  destruct (make_request_frame env (descriptor env op).1.1
              (descriptor env op).1.2 (descriptor env op).2 s) as [Hs Hc].
  simpl in Hs, Hc. rewrite Ht in Hs, Hc. simpl in Hs, Hc.
  split; [exact Hs|]. split; [apply api_request_not_token|].
  split; [exact Hc|]. split.
  - intros why Hn. now rewrite (make_request_no_answer env _ _ _ _ _ _ Ht Hn).
  - intros r Hn Hr Hj.
    now rewrite (make_request_undecodable env _ _ _ _ _ _ Ht Hn Hr Hj).
Qed.

(** X5. A success response from the identity endpoint whose body is not JSON
    raises the decode error, and one whose JSON is not an object raises
    [TypeError]; in both cases before anything is stored. *)
Theorem token_body_must_be_an_object (s : State) (r : Response) :
  token_is_fresh env s = false ->
  network env (sent (world s)) (token_request env (self s)) = Answer r ->
  is_success r = true ->
  (forall d : gmap string pyval, json_body r <> Some (PDict d)) ->
  fst (_get_token env s)
  = Raise (match json_body r with
           | None => JSONDecodeError (text r)
           | Some _ => TypeError
           end)
  /\ self (snd (_get_token env s)) = self s.
Proof.
  intros Hf Hn Hr Hd. rewrite get_token_stale by done.
  rewrite <- (sent_checked s) in Hn. run_token_step. rewrite Hn, Hr. simpl.
  destruct (json_body r) as [v|]; simpl.
  - destruct v; simpl; try (now rewrite self_checked).
    now destruct (Hd d).
  - now rewrite self_checked.
Qed.


Lemma stale_sends (s : State) :
  token_is_fresh env s = false ->
  sent (world (snd (_get_token env s)))
  = (sent (world s) ++ [token_request env (self s)])%list.
Proof.
  intros Hf. destruct (get_token_frame env s) as [Hs _]. now rewrite Hs, Hf.
Qed.




(** ** What goes out on the wire *)

Lemma descriptor_headers (op : Call) :
  kw_headers (descriptor env op).2 = None
  \/ kw_headers (descriptor env op).2 = Some json_content_type.
Proof. destruct op; simpl; auto. Qed.

Lemma api_request_standard_headers (c : InvestecClient)
    (method endpoint : string) (kwargs : Kwargs) :
  kw_headers kwargs = None \/ kw_headers kwargs = Some json_content_type ->
  let h := headers (api_request env c method endpoint kwargs) in
  h !! "Authorization" = Some ("Bearer " ++ py_str env (access_token c))
  /\ h !! "x-api-key" = Some (api_key c)
  /\ h !! "Accept" = Some "application/json"
  /\ h !! "Content-Type" = kw_headers kwargs ≫= (.!! "Content-Type").
Proof.
  intros Hk h. subst h. unfold api_request. simpl.
  destruct Hk as [-> | ->]; simpl.
  - split; [now apply lookup_insert_eq|].
    split; [now rewrite lookup_insert_ne, lookup_insert_eq by done|].
    split; [now rewrite !lookup_insert_ne, lookup_insert_eq by done|].
    now rewrite !lookup_insert_ne, lookup_empty by done.
  - assert (Hother : forall k : string,
              k <> "Content-Type" -> json_content_type !! k = None).
    { intros k Hne. unfold json_content_type.
      now rewrite lookup_insert_ne, lookup_empty by done. }
    split; [rewrite lookup_union_r by (now apply Hother);
            now apply lookup_insert_eq|].
    split; [rewrite lookup_union_r by (now apply Hother);
            now rewrite lookup_insert_ne, lookup_insert_eq by done|].
    split; [rewrite lookup_union_r by (now apply Hother);
            now rewrite !lookup_insert_ne, lookup_insert_eq by done|].
    rewrite lookup_union_l'; [done|].
    unfold json_content_type. rewrite lookup_insert_eq. eauto.
Qed.

Lemma perform_sends (op : Call) (s s1 : State) :
  _get_token env s = (Ok tt, s1) ->
  sent (world (snd (perform env op s)))
  = (sent (world s1)
     ++ [api_request env (self s1) (descriptor env op).1.1
           (descriptor env op).1.2 (descriptor env op).2])%list.
Proof. intros Ht. rewrite perform_descriptor. now apply make_request_sends. Qed.

(** X9. The request of every call carries the access token the client holds
    once the token step is over, as [Bearer], together with the API key of
    the client and [Accept: application/json]. *)
Theorem api_request_carries_token_and_key (op : Call) (s s1 : State) :
  _get_token env s = (Ok tt, s1) ->
  exists req : Request,
    sent (world (snd (perform env op s))) = (sent (world s1) ++ [req])%list
    /\ headers req !! "Authorization"
       = Some ("Bearer " ++ py_str env (access_token (self s1)))
    /\ headers req !! "x-api-key" = Some (api_key (self s))
    /\ headers req !! "Accept" = Some "application/json".
Proof.
  intros Ht. eexists. split; [now apply perform_sends|].
  destruct (api_request_standard_headers (self s1) (descriptor env op).1.1
              (descriptor env op).1.2 (descriptor env op).2
              (descriptor_headers op)) as (Ha & Hk & Hacc & _).
  split; [exact Ha|]. split; [|exact Hacc]. rewrite Hk.
  destruct (get_token_frame env s) as [_ Hc]. rewrite Ht in Hc.
  unfold credentials in Hc. simpl in Hc. now injection Hc as _ _ ->.
Qed.


(** X11. Every call is a GET or a POST; the POSTs are exactly the requests
    with a JSON body and exactly those with [Content-Type: application/json];
    a GET has no [Content-Type] header, and no call sends form data. *)
Theorem json_body_iff_post (op : Call) (s s1 : State) :
  _get_token env s = (Ok tt, s1) ->
  exists req : Request,
    sent (world (snd (perform env op s))) = (sent (world s1) ++ [req])%list
    /\ (method req = "GET" \/ method req = "POST")
    /\ (method req = "POST" <-> is_Some (json req))
    /\ (method req = "POST"
        <-> headers req !! "Content-Type" = Some "application/json")
    /\ (method req = "GET" <-> headers req !! "Content-Type" = None)
    /\ (is_Some (params req) -> method req = "GET")
    /\ data req = None.
Proof.
  intros Ht. eexists. split; [now apply perform_sends|].
  destruct (api_request_standard_headers (self s1) (descriptor env op).1.1
              (descriptor env op).1.2 (descriptor env op).2
              (descriptor_headers op)) as (_ & _ & _ & Hct).
  rewrite Hct. clear Hct.
  destruct op; simpl; (split; [auto|]);
    repeat split; try done; try (intros [? [=]]); try (intros [=]); eauto.
Qed.

(** X12. [pay_beneficiary] is [pay_multiple] on a one-element list; the
    element has exactly the beneficiary id, the stringified amount and the
    reference in both reference fields, and the body of the POST to
    /accounts/{id}/paymultiple has the key [paymentList] and no other. *)
Theorem pay_beneficiary_delegates (account_id beneficiary_id : string)
    (amount : Qc) (reference : string) (s s1 : State) :
  _get_token env s = (Ok tt, s1) ->
  exists (entry body : gmap string pyval) (req : Request),
    pay_beneficiary env account_id beneficiary_id amount reference
    = pay_multiple env account_id [PDict entry]
    /\ entry !! "beneficiaryId" = Some (PStr beneficiary_id)
    /\ entry !! "amount" = Some (PStr (py_str env (PFloat amount)))
    /\ entry !! "myReference" = Some (PStr reference)
    /\ entry !! "theirReference" = Some (PStr reference)
    /\ size entry = 4%nat
    /\ sent (world (snd (pay_beneficiary env account_id beneficiary_id amount
                           reference s)))
       = (sent (world s1) ++ [req])%list
    /\ method req = "POST"
    /\ url req = API_URL ++ "/accounts/" ++ account_id ++ "/paymultiple"
    /\ json req = Some (PDict body)
    /\ body !! "paymentList" = Some (PList [PDict entry])
    /\ size body = 1%nat.
Proof.
  intros Ht. eexists _, _, _. split; [reflexivity|].
  split; [apply lookup_insert_eq|].
  do 3 (split; [now rewrite !lookup_insert_ne by done; rewrite lookup_insert_eq|]).
  split.
  { rewrite !map_size_insert_None, map_size_empty; try done;
      now rewrite ?lookup_insert_ne by done. }
  split.
  { unfold pay_beneficiary, pay_multiple.
    apply (make_request_sends env _ _ _ _ _ Ht). }
  simpl. repeat split; try done.
Qed.

(** X13. [get_documents] sends both dates as they are, empty strings
    included: the query of its GET always has exactly the keys [fromDate]
    and [toDate]. *)
Theorem documents_query_is_verbatim (account_id from_date to_date : string)
    (s s1 : State) :
  _get_token env s = (Ok tt, s1) ->
  exists req : Request,
    sent (world (snd (get_documents env account_id from_date to_date s)))
    = (sent (world s1) ++ [req])%list
    /\ method req = "GET"
    /\ url req = API_URL ++ "/accounts/" ++ account_id ++ "/documents"
    /\ query req !! "fromDate" = Some from_date
    /\ query req !! "toDate" = Some to_date
    /\ size (query req) = 2%nat.
Proof.
  intros Ht. eexists. split.
  { unfold get_documents. apply (make_request_sends env _ _ _ _ _ Ht). }
  unfold query. simpl. repeat split; done.
Qed.

(** X14. [transfer_multiple] posts the list it is given as it is, empty or
    not, under [transferList]; the body has [profileId] with the given value
    when the profile id is a non-empty string, and no other key. *)
Theorem transfer_multiple_body (from_account_id : string)
    (transfer_list : list pyval) (profile_id : option string) (s s1 : State) :
  _get_token env s = (Ok tt, s1) ->
  exists (body : gmap string pyval) (req : Request),
    sent (world (snd (transfer_multiple env from_account_id transfer_list
                        profile_id s)))
    = (sent (world s1) ++ [req])%list
    /\ method req = "POST"
    /\ url req = API_URL ++ "/accounts/" ++ from_account_id ++ "/transfermultiple"
    /\ json req = Some (PDict body)
    /\ body !! "transferList" = Some (PList transfer_list)
    /\ body !! "profileId" = PStr <$> non_empty profile_id
    /\ size body = match non_empty profile_id with
                   | Some _ => 2%nat
                   | None => 1%nat
                   end.
Proof.
  intros Ht. eexists _, _. split.
  { unfold transfer_multiple. apply (make_request_sends env _ _ _ _ _ Ht). }
  simpl. split; [done|]. split; [done|]. split; [done|].
  destruct profile_id as [[|a p]|]; simpl; repeat split; done.
Qed.

(** X15. [pay_multiple] posts the list it is given as it is under
    [paymentList], the only key of the body. *)
Theorem pay_multiple_body (account_id : string) (payment_list : list pyval)
    (s s1 : State) :
  _get_token env s = (Ok tt, s1) ->
  exists (body : gmap string pyval) (req : Request),
    sent (world (snd (pay_multiple env account_id payment_list s)))
    = (sent (world s1) ++ [req])%list
    /\ method req = "POST"
    /\ url req = API_URL ++ "/accounts/" ++ account_id ++ "/paymultiple"
    /\ json req = Some (PDict body)
    /\ body !! "paymentList" = Some (PList payment_list)
    /\ size body = 1%nat
    /\ params req = None.
Proof.
  intros Ht. eexists _, _. split.
  { unfold pay_multiple. apply (make_request_sends env _ _ _ _ _ Ht). }
  simpl. repeat split; done.
Qed.

(** ** The token over a client's lifetime *)

Lemma perform_token_request (op : Call) (s : State) :
  token_request env (self (snd (perform env op s))) = token_request env (self s).
Proof.
  apply token_request_ext; [apply perform_credentials|apply perform_scope].
Qed.

(** X16. All the token requests a client ever sends are one and the same
    request: along any sequence of calls the identity endpoint receives, once
    per call starting without a fresh token, the request made of the
    credentials and the scope the client started with. *)
Theorem token_requests_are_identical (ops : list Call) (s : State) :
  token_posts (world (run env ops s))
  = (token_posts (world s)
     ++ replicate (renewals_due env ops s) (token_request env (self s)))%list
  /\ scope (self (run env ops s)) = scope (self s).
Proof.
  revert s. induction ops as [|op rest IH]; intros s; simpl.
  - now rewrite app_nil_r.
  - destruct (IH (snd (perform env op s))) as [Hposts Hscope].
    rewrite Hposts, Hscope, perform_token_posts, perform_token_request,
      perform_scope, <- app_assoc.
    split; [|done]. f_equal. now destruct (token_is_fresh env s).
Qed.

(** X17. While the token is fresh, nothing a resource endpoint answers
    touches it: after any call, whatever its outcome, the client object is
    exactly as before. *)
Theorem resource_outcome_keeps_token (op : Call) (s : State) :
  token_is_fresh env s = true ->
  self (snd (perform env op s)) = self s
  /\ token_posts (world (snd (perform env op s))) = token_posts (world s).
Proof.
  intros Hf. split.
  - rewrite perform_descriptor.
    destruct (make_request_frame env (descriptor env op).1.1
                (descriptor env op).1.2 (descriptor env op).2 s) as [_ Hc].
    simpl in Hc. rewrite Hc. now rewrite get_token_fresh.
  - now rewrite perform_token_posts, Hf, app_nil_r.
Qed.

(** ** From the environment to the first request *)

Lemma client_of_environment (environ : gmap string string)
    (id secret key : string) :
  environ !! "INVESTEC_CLIENT_ID" = Some id ->
  environ !! "INVESTEC_CLIENT_SECRET" = Some secret ->
  environ !! "INVESTEC_API_KEY" = Some key ->
  id <> "" -> secret <> "" -> key <> "" ->
  get_investec_api_client environ = Ok (__init__ id secret key).
Proof.
  intros Hi Hs Hk Hid Hsecret Hkey. unfold get_investec_api_client, getenv.
  rewrite Hi, Hs, Hk.
  destruct (all [PStr id; PStr secret; PStr key]) eqn:Hall; [done|].
  apply all_credentials in Hall. tauto.
Qed.

(** X18. A client made from the environment starts every first call by
    posting, to the identity endpoint, the credentials the environment
    holds: Basic authentication on [id:secret], the API key header, and the
    form [grant_type=client_credentials] with the fixed scope. *)
Theorem first_call_posts_environment_credentials
    (environ : gmap string string) (id secret key : string)
    (op : Call) (w : World) :
  environ !! "INVESTEC_CLIENT_ID" = Some id ->
  environ !! "INVESTEC_CLIENT_SECRET" = Some secret ->
  environ !! "INVESTEC_API_KEY" = Some key ->
  id <> "" -> secret <> "" -> key <> "" ->
  exists (c : InvestecClient) (req : Request) (rest : list Request)
         (form : gmap string string),
    get_investec_api_client environ = Ok c
    /\ sent (world (snd (perform env op {| self := c; world := w |})))
       = (sent w ++ req :: rest)%list
    /\ method req = "POST"
    /\ url req = TOKEN_URL
    /\ headers req !! "Authorization"
       = Some ("Basic " ++ b64encode env (id ++ ":" ++ secret))
    /\ headers req !! "x-api-key" = Some key
    /\ headers req !! "Content-Type" = Some "application/x-www-form-urlencoded"
    /\ data req = Some form
    /\ form !! "grant_type" = Some "client_credentials"
    /\ form !! "scope" = Some (scope (__init__ id secret key))
    /\ size form = 2%nat
    /\ json req = None
    /\ params req = None.
Proof.
  intros Hi Hs Hk Hid Hsecret Hkey.
  set (s := {| self := __init__ id secret key; world := w |}).
  exists (__init__ id secret key), (token_request env (__init__ id secret key)).
  exists (match fst (_get_token env s) with
          | Ok _ => [api_request env (self (snd (_get_token env s)))
                       (descriptor env op).1.1 (descriptor env op).1.2
                       (descriptor env op).2]
          | Raise _ => []
          end).
  eexists. split; [now apply client_of_environment|]. split.
  { fold s. rewrite perform_descriptor.
    destruct (make_request_frame env (descriptor env op).1.1
                (descriptor env op).1.2 (descriptor env op).2 s) as [Hsent _].
    simpl in Hsent. rewrite Hsent, stale_sends by done.
    now rewrite <- app_assoc. }
  simpl. repeat split; done.
Qed.

(** ** The tool layer *)

Variable out : Presentation.

(** A tool is its client method followed by the rendering of the outcome. *)
Lemma invoke_perform (i : Tools.Invocation) (s : State) :
  Tools.invoke env out i s
  = (match fst (perform env (method_of i) s) with
     | Ok v => json_dumps out v
     | Raise e => error_prefix i ++ exn_str out e
     end,
     snd (perform env (method_of i) s)).
Proof.
  destruct i; simpl;
    match goal with
    | |- ?tool _ = _ => unfold tool
    | |- ?tool _ _ = _ => unfold tool
    | |- ?tool _ _ _ = _ => unfold tool
    | |- ?tool _ _ _ _ = _ => unfold tool
    | |- ?tool _ _ _ _ _ = _ => unfold tool
    | |- ?tool _ _ _ _ _ _ = _ => unfold tool
    | |- ?tool _ _ _ _ _ _ _ = _ => unfold tool
    | |- ?tool _ _ _ _ _ _ _ _ = _ => unfold tool
    end;
    unfold try_except, mbind, M_bind, mret, M_ret;
    match goal with
    | |- context [match ?m s with _ => _ end] => destruct (m s) as [[v|e] s']
    end;
    reflexivity.
Qed.

(** X19. What a tool returns once the token step is over: for a non-success
    answer of the resource endpoint, its own error words followed by the
    text of the status error; for a success answer with a JSON body, the
    rendering of that body.  One request is sent either way. *)
Theorem tool_answer (i : Tools.Invocation) (s s1 : State) :
  _get_token env s = (Ok tt, s1) ->
  exists req : Request,
    sent (world (snd (Tools.invoke env out i s))) = (sent (world s1) ++ [req])%list
    /\ forall r : Response,
         network env (sent (world s1)) req = Answer r ->
         (is_success r = false ->
          fst (Tools.invoke env out i s)
          = error_prefix i ++ exn_str out (HTTPStatusError r))
         /\ (is_success r = true ->
             forall v : pyval,
               json_body r = Some v ->
               fst (Tools.invoke env out i s) = json_dumps out v).
Proof.
  intros Ht. rewrite invoke_perform. simpl.
  exists (api_request env (self s1) (descriptor env (method_of i)).1.1
            (descriptor env (method_of i)).1.2 (descriptor env (method_of i)).2).
  split; [now apply perform_sends|].
  intros r Hn. rewrite perform_descriptor. split.
  - intros Hr. now rewrite (make_request_bad_status env _ _ _ _ _ _ Ht Hn Hr).
  - intros Hr v Hj.
    now rewrite (make_request_returns env _ _ _ _ _ _ _ Ht Hn Hr Hj).
Qed.

(** X20. When the token step raises, the tool returns its own error words
    followed by the text of that exception, and nothing went to the
    resource endpoint. *)
Theorem tool_reports_token_failure (i : Tools.Invocation) (s s1 : State)
    (e : Exn) :
  _get_token env s = (Raise e, s1) ->
  Tools.invoke env out i s = (error_prefix i ++ exn_str out e, s1)
  /\ sent (world s1) = (sent (world s) ++ [token_request env (self s)])%list.
Proof.
  intros Ht. rewrite invoke_perform, perform_descriptor.
  rewrite (make_request_auth_fails env _ _ _ _ _ _ Ht). simpl.
  split; [done|].
  destruct (get_token_frame env s) as [Hs _]. rewrite Ht in Hs. simpl in Hs.
  destruct (token_is_fresh env s) eqn:Hf; [|done].
  rewrite get_token_fresh in Ht by done. discriminate.
Qed.

Lemma session_run (calls : list Tools.Invocation) (s : State) :
  snd (Tools.session env out calls s) = run env (map method_of calls) s
  /\ length (fst (Tools.session env out calls s)) = length calls.
Proof.
  revert s. induction calls as [|i rest IH]; intros s; simpl; [done|].
  rewrite invoke_perform.
  destruct (IH (snd (perform env (method_of i) s))) as [Hs Hl].
  destruct (Tools.session env out rest (snd (perform env (method_of i) s)))
    as [answers s''].
  simpl in *. now rewrite Hs, Hl.
Qed.

Lemma run_credentials (ops : list Call) (s : State) :
  credentials (self (run env ops s)) = credentials (self s).
Proof.
  revert s. induction ops as [|op rest IH]; intros s; simpl; [done|].
  now rewrite IH, perform_credentials.
Qed.

(** X21. A session of tool calls never stops on a failure: it returns one
    text per call and leaves the client and the wire as the same sequence of
    client-method calls does; the identity endpoint got one token request
    for each call that started without a fresh token, and the credentials
    are untouched. *)
Theorem tool_session_runs_to_the_end (calls : list Tools.Invocation)
    (s : State) :
  let final := snd (Tools.session env out calls s) in
  length (fst (Tools.session env out calls s)) = length calls
  /\ final = run env (map method_of calls) s
  /\ length (token_posts (world final))
     = (length (token_posts (world s))
        + renewals_due env (map method_of calls) s)%nat
  /\ credentials (self final) = credentials (self s).
Proof.
  destruct (session_run calls s) as [Hs Hl]. simpl.
  split; [exact Hl|]. split; [exact Hs|]. rewrite Hs. split.
  - apply run_token_posts.
  - apply run_credentials.
Qed.

(** ** The query of the transactions call *)

Lemma set_if_truthy_lookup_Some (key k v : string) (arg : option string)
    (d : gmap string string) :
  set_if_truthy key arg d !! k = Some v -> k = key \/ d !! k = Some v.
Proof.
  destruct arg as [[|a x]|]; simpl; auto.
  destruct (decide (key = k)) as [<-|Hne]; [auto|].
  rewrite lookup_insert_ne by done. auto.
Qed.

(** X23. The query of [get_account_transactions] never has a key beyond
    [fromDate], [toDate], [transactionType] and [includePending], and when
    no filter is given and pending transactions are not asked for it is
    sent as an empty dictionary. *)
Theorem account_transactions_query_keys (account_id : string)
    (from_date to_date transaction_type : option string)
    (include_pending : bool) (s s1 : State) :
  _get_token env s = (Ok tt, s1) ->
  exists req : Request,
    sent (world (snd (get_account_transactions env account_id from_date to_date
                        transaction_type include_pending s)))
    = (sent (world s1) ++ [req])%list
    /\ (forall k : string,
          is_Some (query req !! k) ->
          k = "fromDate" \/ k = "toDate" \/ k = "transactionType"
          \/ k = "includePending")
    /\ (non_empty from_date = None -> non_empty to_date = None ->
        non_empty transaction_type = None -> include_pending = false ->
        params req = Some ∅)
    /\ json req = None.
Proof.
  intros Ht. eexists. split.
  { unfold get_account_transactions. apply (make_request_sends env _ _ _ _ _ Ht). }
  unfold query. simpl. split; [|split; [|done]].
  - intros k [v Hv].
    assert (Hfilters :
      set_if_truthy "transactionType" transaction_type
        (set_if_truthy "toDate" to_date
           (set_if_truthy "fromDate" from_date ∅)) !! k = Some v ->
      k = "fromDate" \/ k = "toDate" \/ k = "transactionType").
    { intros H. apply set_if_truthy_lookup_Some in H as [->|H]; [auto|].
      apply set_if_truthy_lookup_Some in H as [->|H]; [auto|].
      apply set_if_truthy_lookup_Some in H as [->|H]; [auto|].
      now rewrite lookup_empty in H. }
    destruct include_pending; [|destruct (Hfilters Hv) as [?|[?|?]]; auto].
    destruct (decide ("includePending" = k)) as [<-|Hne]; [auto|].
    rewrite lookup_insert_ne in Hv by done.
    destruct (Hfilters Hv) as [?|[?|?]]; auto.
  - intros Hf Hd Hy ->.
    destruct from_date as [[|a x]|]; try discriminate;
      destruct to_date as [[|b y]|]; try discriminate;
      destruct transaction_type as [[|c z]|]; try discriminate; reflexivity.
Qed.

End Further.

(** ** The entry point *)

(** X22. [main] runs the SSE transport exactly when [TRANSPORT] is unset or
    is the string [sse], letter for letter; any other value, the empty string
    and [SSE] included, runs stdio. *)
Theorem transport_is_sse_unless_told_otherwise (environ : gmap string string) :
  (main_transport environ = SSE
   <-> environ !! "TRANSPORT" = None \/ environ !! "TRANSPORT" = Some "sse")
  /\ (main_transport environ = Stdio
      <-> exists v : string, environ !! "TRANSPORT" = Some v /\ v <> "sse")
  /\ main_transport (<["TRANSPORT" := ""]> environ) = Stdio
  /\ main_transport (<["TRANSPORT" := "SSE"]> environ) = Stdio.
Proof.
  unfold main_transport, getenv. split; [|split; [|split]].
  - destruct (environ !! "TRANSPORT") as [v|]; [|now split; auto].
    case_bool_decide as Hv; split; try done.
    + intros _. right. now rewrite Hv.
    + intros [H|H]; [done|]. now injection H.
  - destruct (environ !! "TRANSPORT") as [v|].
    + case_bool_decide as Hv; split; try done.
      * intros (v' & [= <-] & Hne). done.
      * intros _. now exists v.
    + split; [done|]. now intros (v & H & _).
  - now rewrite lookup_insert_eq.
  - now rewrite lookup_insert_eq.
Qed.

(** * The further properties on the example worlds *)

Lemma failed_token_step_stops_the_call_witness :
  let env := example_env unauthorized accounts_listing in
  let s1 := snd (_get_token env start) in
  _get_token env start = (Raise (HTTPStatusError unauthorized), s1)
  /\ perform env GetAccounts start = (Raise (HTTPStatusError unauthorized), s1)
  /\ sent (world s1) = [token_request env (self start)].
Proof.
  intros env s1.
  assert (Ht : _get_token env start = (Raise (HTTPStatusError unauthorized), s1))
    by (vm_compute; reflexivity).
  split; [exact Ht|].
  exact (failed_token_step_stops_the_call env GetAccounts start s1 _ Ht).
Defined.


Lemma identity_unreachable_witness :
  let env := example_env_on offline in
  (token_is_fresh env start = false
   /\ network env (sent (world start)) (token_request env (self start))
      = NoAnswer "connection refused")
  /\ fst (perform env GetProfiles start)
     = Raise (TransportError "connection refused")
  /\ self (snd (perform env GetProfiles start)) = self start.
Proof.
  intros env.
  assert (Hf : token_is_fresh env start = false) by reflexivity.
  assert (Hn : network env (sent (world start)) (token_request env (self start))
               = NoAnswer "connection refused") by reflexivity.
  split; [auto|].
  destruct (identity_unreachable env GetProfiles start _ Hf Hn) as (He & Hc & _).
  split; [exact He|exact Hc].
Defined.

Lemma resource_exchange_failures_witness :
  let env := example_env_on resource_offline in
  let s1 := snd (_get_token env start) in
  _get_token env start = (Ok tt, s1)
  /\ fst (perform env GetAccounts start)
     = Raise (TransportError "connection refused")
  /\ access_token (self (snd (perform env GetAccounts start))) = PStr "tok".
Proof.
  intros env s1.
  assert (Ht : _get_token env start = (Ok tt, s1)) by (vm_compute; reflexivity).
  split; [exact Ht|].
  destruct (resource_exchange_failures env GetAccounts start s1 Ht)
    as (req & _ & Hu & Hc & Hno & _).
  split.
  - apply Hno. unfold env. simpl. unfold resource_offline.
    now rewrite bool_decide_eq_false_2.
  - rewrite Hc. reflexivity.
Defined.

Lemma token_body_must_be_an_object_witness :
  let env := example_env html_page accounts_listing in
  (token_is_fresh env start = false /\ is_success html_page = true)
  /\ fst (_get_token env start) = Raise (JSONDecodeError (text html_page))
  /\ self (snd (_get_token env start)) = self start.
Proof.
  intros env. split; [split; reflexivity|].
  apply (token_body_must_be_an_object env start html_page);
    try reflexivity.
  intros d. discriminate.
Defined.




Lemma api_request_carries_token_and_key_witness :
  let env := example_env granted accounts_listing in
  _get_token env start = (Ok tt, snd (_get_token env start))
  /\ exists req : Request,
       last (sent (world (snd (perform env GetAccounts start)))) = Some req
       /\ headers req !! "Authorization" = Some "Bearer tok"
       /\ headers req !! "x-api-key" = Some "key"
       /\ headers req !! "Accept" = Some "application/json".
Proof.
  intros env.
  assert (Ht : _get_token env start = (Ok tt, snd (_get_token env start)))
    by (vm_compute; reflexivity).
  split; [exact Ht|].
  destruct (api_request_carries_token_and_key env GetAccounts start _ Ht)
    as (req & Hs & Ha & Hk & Hacc).
  exists req. rewrite Hs, last_snoc. repeat split; assumption.
Defined.


Lemma json_body_iff_post_witness :
  let env := example_env granted accounts_listing in
  _get_token env start = (Ok tt, snd (_get_token env start))
  /\ exists req : Request,
       last (sent (world (snd (perform env (PayMultiple "A" []) start))))
       = Some req
       /\ (method req = "POST" <-> is_Some (json req))
       /\ (method req = "POST"
           <-> headers req !! "Content-Type" = Some "application/json")
       /\ data req = None.
Proof.
  intros env.
  assert (Ht : _get_token env start = (Ok tt, snd (_get_token env start)))
    by (vm_compute; reflexivity).
  split; [exact Ht|].
  destruct (json_body_iff_post env (PayMultiple "A" []) start _ Ht)
    as (req & Hs & _ & Hj & Hc & _ & _ & Hd).
  exists req. rewrite Hs, last_snoc. repeat split; try assumption.
  - apply Hj. - apply Hj. - apply Hc. - apply Hc.
Defined.

Lemma pay_beneficiary_delegates_witness :
  let env := example_env granted accounts_listing in
  _get_token env start = (Ok tt, snd (_get_token env start))
  /\ exists (entry body : gmap string pyval) (req : Request),
       pay_beneficiary env "A" "ben-1" (Qc_of_Z 250) "rent"
       = pay_multiple env "A" [PDict entry]
       /\ entry !! "beneficiaryId" = Some (PStr "ben-1")
       /\ entry !! "amount" = Some (PStr "250.0")
       /\ last (sent (world (snd (pay_beneficiary env "A" "ben-1" (Qc_of_Z 250)
                                    "rent" start)))) = Some req
       /\ url req = API_URL ++ "/accounts/A/paymultiple"
       /\ json req = Some (PDict body)
       /\ body !! "paymentList" = Some (PList [PDict entry]).
Proof.
  intros env.
  assert (Ht : _get_token env start = (Ok tt, snd (_get_token env start)))
    by (vm_compute; reflexivity).
  split; [exact Ht|].
  destruct (pay_beneficiary_delegates env "A" "ben-1" (Qc_of_Z 250) "rent"
              start _ Ht)
    as (entry & body & req & Heq & Hb & Ha & _ & _ & _ & Hs & _ & Hu & Hj
        & Hl & _).
  exists entry, body, req. rewrite Hs, last_snoc.
  repeat split; assumption.
Defined.

Lemma documents_query_is_verbatim_witness :
  let env := example_env granted accounts_listing in
  _get_token env start = (Ok tt, snd (_get_token env start))
  /\ exists req : Request,
       last (sent (world (snd (get_documents env "A" "" "2024-12-31" start))))
       = Some req
       /\ query req !! "fromDate" = Some ""
       /\ query req !! "toDate" = Some "2024-12-31".
Proof.
  intros env.
  assert (Ht : _get_token env start = (Ok tt, snd (_get_token env start)))
    by (vm_compute; reflexivity).
  split; [exact Ht|].
  destruct (documents_query_is_verbatim env "A" "" "2024-12-31" start _ Ht)
    as (req & Hs & _ & _ & Hf & Hd & _).
  exists req. rewrite Hs, last_snoc. repeat split; assumption.
Defined.

Lemma transfer_multiple_body_witness :
  let env := example_env granted accounts_listing in
  _get_token env start = (Ok tt, snd (_get_token env start))
  /\ exists (body : gmap string pyval) (req : Request),
       last (sent (world (snd (transfer_multiple env "A" [] (Some "P7") start))))
       = Some req
       /\ json req = Some (PDict body)
       /\ body !! "transferList" = Some (PList [])
       /\ body !! "profileId" = Some (PStr "P7")
       /\ size body = 2%nat.
Proof.
  intros env.
  assert (Ht : _get_token env start = (Ok tt, snd (_get_token env start)))
    by (vm_compute; reflexivity).
  split; [exact Ht|].
  destruct (transfer_multiple_body env "A" [] (Some "P7") start _ Ht)
    as (body & req & Hs & _ & _ & Hj & Hl & Hp & Hsize).
  exists body, req. rewrite Hs, last_snoc. repeat split; assumption.
Defined.

Lemma pay_multiple_body_witness :
  let env := example_env granted accounts_listing in
  _get_token env start = (Ok tt, snd (_get_token env start))
  /\ exists (body : gmap string pyval) (req : Request),
       last (sent (world (snd (pay_multiple env "A" [] start)))) = Some req
       /\ json req = Some (PDict body)
       /\ body !! "paymentList" = Some (PList [])
       /\ size body = 1%nat.
Proof.
  intros env.
  assert (Ht : _get_token env start = (Ok tt, snd (_get_token env start)))
    by (vm_compute; reflexivity).
  split; [exact Ht|].
  destruct (pay_multiple_body env "A" [] start _ Ht)
    as (body & req & Hs & _ & _ & Hj & Hl & Hsize & _).
  exists body, req. rewrite Hs, last_snoc. repeat split; assumption.
Defined.

Lemma resource_outcome_keeps_token_witness :
  let env := example_env granted server_error in
  token_is_fresh env cached = true
  /\ self (snd (perform env GetAccounts cached)) = self cached
  /\ token_posts (world (snd (perform env GetAccounts cached)))
     = token_posts (world cached).
Proof.
  intros env.
  assert (Hf : token_is_fresh env cached = true) by (vm_compute; reflexivity).
  split; [exact Hf|].
  exact (resource_outcome_keeps_token env GetAccounts cached Hf).
Defined.

Lemma first_call_posts_environment_credentials_witness :
  let env := example_env granted accounts_listing in
  let environ := example_environ "id" "secret" "key" in
  exists (c : InvestecClient) (req : Request) (rest : list Request),
    get_investec_api_client environ = Ok c
    /\ sent (world (snd (perform env GetAccounts
                           {| self := c;
                              world := {| clock_reads := 0; sent := [] |} |})))
       = req :: rest
    /\ url req = TOKEN_URL
    /\ headers req !! "Authorization" = Some "Basic aWQ6c2VjcmV0"
    /\ headers req !! "x-api-key" = Some "key".
Proof.
  intros env environ.
  destruct (first_call_posts_environment_credentials env environ
              "id" "secret" "key" GetAccounts {| clock_reads := 0; sent := [] |})
    as (c & req & rest & form & Hc & Hs & _ & Hu & Ha & Hk & _);
    try (vm_compute; reflexivity); try discriminate.
  exists c, req, rest. repeat split; assumption.
Defined.

Lemma tool_answer_witness :
  let env := example_env granted server_error in
  _get_token env start = (Ok tt, snd (_get_token env start))
  /\ fst (Tools.invoke env example_presentation Tools.GetAccounts start)
     = "Error retrieving accounts: HTTP status 500".
Proof.
  intros env.
  assert (Ht : _get_token env start = (Ok tt, snd (_get_token env start)))
    by (vm_compute; reflexivity).
  split; [exact Ht|].
  destruct (tool_answer env example_presentation Tools.GetAccounts start _ Ht)
    as (req & Hs & Hreply).
  assert (Hn : network env (sent (world (snd (_get_token env start)))) req
               = Answer server_error).
  { rewrite invoke_perform in Hs. simpl in Hs.
    assert (Hlast := f_equal last Hs). rewrite last_snoc in Hlast.
    vm_compute in Hlast. injection Hlast as <-. vm_compute. reflexivity. }
  destruct (Hreply server_error Hn) as [Hbad _].
  rewrite (Hbad eq_refl). reflexivity.
Defined.

Lemma tool_reports_token_failure_witness :
  let env := example_env unauthorized accounts_listing in
  let s1 := snd (_get_token env start) in
  _get_token env start = (Raise (HTTPStatusError unauthorized), s1)
  /\ Tools.invoke env example_presentation (Tools.GetDocument "A" "Statement"
                                               "2024-01-31") start
     = ("Error retrieving document: HTTP status 401", s1).
Proof.
  intros env s1.
  assert (Ht : _get_token env start = (Raise (HTTPStatusError unauthorized), s1))
    by (vm_compute; reflexivity).
  split; [exact Ht|].
  destruct (tool_reports_token_failure env example_presentation
              (Tools.GetDocument "A" "Statement" "2024-01-31") start s1 _ Ht)
    as [Hi _].
  rewrite Hi. reflexivity.
Defined.

Lemma account_transactions_query_keys_witness :
  let env := example_env granted accounts_listing in
  _get_token env start = (Ok tt, snd (_get_token env start))
  /\ exists req : Request,
       last (sent (world (snd (get_account_transactions env "123" (Some "")
                                 None None false start)))) = Some req
       /\ params req = Some ∅.
Proof.
  intros env.
  assert (Ht : _get_token env start = (Ok tt, snd (_get_token env start)))
    by (vm_compute; reflexivity).
  split; [exact Ht|].
  destruct (account_transactions_query_keys env "123" (Some "") None None false
              start _ Ht) as (req & Hs & _ & Hempty & _).
  exists req. rewrite Hs, last_snoc. split; [reflexivity|].
  now apply Hempty.
Defined.
